(** * eyelinkparser: a shallow embedding of the EyeLink log parser

    The development follows the two source files of the repository:

    - [eyelinkparser.py]: the class [EyeLinkParser] (tokenizer [split], the
      trial/phase loop [parse_file] / [parse_trial] / [parse_variable] /
      [parse_phase], and the dictionary decoders [to_sample], [to_saccade],
      [to_fixation]);
    - [eyelinkparser/_events.py]: the event classes [Blink], [Fixation],
      [Sample], [Saccade] and the dispatcher [event].

    Python values that occur in a tokenized line are integers, floats and
    strings.  Integers are [Z]; floats are IEEE binary64 numbers, modelled
    with the Gallina specification of floating-point numbers of the standard
    library ([spec_float] at precision 53, [emax] 1024); strings are
    [string] (one [ascii] per character, so the model covers ASCII input).
    Exceptions are explicit: fallible code returns a [res]. *)

From Stdlib Require Import ZArith String Ascii List Bool Lia.
From Stdlib Require Import Floats.SpecFloat Floats.PrimFloat Floats.FloatOps.
From stdpp Require Import gmap strings list.

Import ListNotations.
Local Open Scope Z_scope.

(** ** Exceptions *)

Inductive exn : Type :=
| ValueError
| TypeError
| IndexError
| AssertionError
| OverflowError.

Inductive res (A : Type) : Type :=
| Ok (a : A)
| Raise (e : exn).

Arguments Ok {A} a.
Arguments Raise {A} e.

Definition res_bind {A B} (r : res A) (k : A -> res B) : res B :=
  match r with
  | Ok a => k a
  | Raise e => Raise e
  end.

Definition res_map {A B} (f : A -> B) (r : res A) : res B :=
  res_bind r (fun a => Ok (f a)).

Notation "'try!' x := r 'in' k" := (res_bind r (fun x => k))
  (at level 10, x name, r at level 100, k at level 200).

(** [assert(b)] *)
Definition py_assert (b : bool) : res unit :=
  if b then Ok tt else Raise AssertionError.

(** ** Python floats: IEEE binary64 *)

Module F64.

Definition prec : Z := 53.
Definition emax : Z := 1024.

Definition nan : spec_float := S754_nan.
Definition zero : spec_float := S754_zero false.

Definition add := SFadd prec emax.
Definition sub := SFsub prec emax.
Definition mul := SFmul prec emax.
Definition sqrt := SFsqrt prec emax.
Definition eqb := SFeqb.
Definition leb := SFleb.

Definition is_inf (f : spec_float) : bool :=
  match f with S754_infinity _ => true | _ => false end.

Definition is_nan (f : spec_float) : bool :=
  match f with S754_nan => true | _ => false end.

(** The float nearest to an integer (round to nearest, ties to even);
    an infinity when the integer is beyond the range. *)
Definition of_Z (z : Z) : spec_float := binary_normalize prec emax z 0 false.

(** The float nearest to [m * 10 ^ e] carrying the sign [neg], as
    [float("...")] computes it (correctly rounded; overflow gives an
    infinity, underflow a signed zero). *)
Definition of_decimal (neg : bool) (m : Z) (e : Z) : spec_float :=
  match m with
  | Zpos p =>
      if 0 <=? e then binary_round prec emax neg (p * Z.to_pos (10 ^ e)) 0
      else
        let '(q, e', l) := SFdiv_core_binary prec emax (Zpos p) 0 (10 ^ (- e)) 0 in
        binary_round_aux prec emax neg q e' l
  | _ => S754_zero neg
  end.

(** Exact comparison of a float with an integer, as Python's [==] between a
    [float] and an [int] does it (no conversion of the integer). *)
Definition eqb_Z (f : spec_float) (z : Z) : bool :=
  match f with
  | S754_zero _ => z =? 0
  | S754_finite s m e =>
      let sm := if s then Zneg m else Zpos m in
      if 0 <=? e then z =? sm * 2 ^ e else z * 2 ^ (- e) =? sm
  | _ => false
  end.

End F64.

(** ** Python values of a tokenized line *)

Inductive pyval : Type :=
| PInt (z : Z)
| PFloat (f : spec_float)
| PStr (s : string).

(** [np.nan] *)
Definition np_nan : pyval := PFloat F64.nan.

(** [isinstance(v, basestring)] *)
Definition is_str (v : pyval) : bool :=
  match v with PStr _ => true | _ => false end.

(** [isinstance(v, (int, float))] *)
Definition is_num (v : pyval) : bool :=
  match v with PStr _ => false | _ => true end.

(** [a == b] *)
Definition py_eq (a b : pyval) : bool :=
  match a, b with
  | PInt x, PInt y => x =? y
  | PInt x, PFloat f => F64.eqb_Z f x
  | PFloat f, PInt y => F64.eqb_Z f y
  | PFloat f, PFloat g => F64.eqb f g
  | PStr s, PStr t => String.eqb s t
  | _, _ => false
  end.

(** [v <= 0] for a number [v] (the source guards it with [isinstance]). *)
Definition py_le0 (v : pyval) : bool :=
  match v with
  | PInt z => z <=? 0
  | PFloat f => F64.leb f F64.zero
  | PStr _ => false
  end.

(** Conversion of an [int] operand in mixed arithmetic:
    [OverflowError: int too large to convert to float]. *)
Definition int_to_float (z : Z) : res spec_float :=
  let f := F64.of_Z z in
  if F64.is_inf f then Raise OverflowError else Ok f.

(** [a - b] *)
Definition py_sub (a b : pyval) : res pyval :=
  match a, b with
  | PInt x, PInt y => Ok (PInt (x - y))
  | PInt x, PFloat g => try! f := int_to_float x in Ok (PFloat (F64.sub f g))
  | PFloat f, PInt y => try! g := int_to_float y in Ok (PFloat (F64.sub f g))
  | PFloat f, PFloat g => Ok (PFloat (F64.sub f g))
  | _, _ => Raise TypeError
  end.

(** [a + b]; on two strings it is concatenation. *)
Definition py_add (a b : pyval) : res pyval :=
  match a, b with
  | PInt x, PInt y => Ok (PInt (x + y))
  | PInt x, PFloat g => try! f := int_to_float x in Ok (PFloat (F64.add f g))
  | PFloat f, PInt y => try! g := int_to_float y in Ok (PFloat (F64.add f g))
  | PFloat f, PFloat g => Ok (PFloat (F64.add f g))
  | PStr s, PStr t => Ok (PStr (s ++ t))
  | _, _ => Raise TypeError
  end.

(** [a ** 2].  On a float CPython calls the C library's [pow(a, 2.0)] and
    raises [OverflowError] when a finite argument gives an infinite result;
    [pow] is taken to return the correctly rounded square. *)
Definition py_sq (a : pyval) : res pyval :=
  match a with
  | PInt x => Ok (PInt (x * x))
  | PFloat f =>
      let r := F64.mul f f in
      if F64.is_inf r && negb (F64.is_inf f) then Raise OverflowError
      else Ok (PFloat r)
  | PStr _ => Raise TypeError
  end.

(** [np.sqrt(a)] on a Python scalar.  An [int] is converted to a 64-bit
    machine integer first; one that does not fit has no [sqrt] loop
    (a [TypeError]).  A negative float gives [nan]. *)
Definition np_sqrt (a : pyval) : res pyval :=
  match a with
  | PInt x =>
      if (- 2 ^ 63 <=? x) && (x <? 2 ^ 64) then Ok (PFloat (F64.sqrt (F64.of_Z x)))
      else Raise TypeError
  | PFloat f => Ok (PFloat (F64.sqrt f))
  | PStr _ => Raise TypeError
  end.

(** [l[i]] *)
Definition py_index (l : list pyval) (i : nat) : res pyval :=
  match nth_error l i with
  | Some v => Ok v
  | None => Raise IndexError
  end.

(** ** Characters *)

Definition dquote : ascii := "034"%char.
Definition squote : ascii := "'"%char.
Definition backslash : ascii := "\"%char.
Definition underscore : ascii := "_"%char.

Definition chr_in (c : ascii) (cs : list ascii) : bool :=
  existsb (Ascii.eqb c) cs.

(** C's [Py_ISSPACE]: tab, line feed, vertical tab, form feed, carriage
    return and space. *)
Definition py_isspace (c : ascii) : bool :=
  let n := nat_of_ascii c in
  ((9 <=? n)%nat && (n <=? 13)%nat) || (n =? 32)%nat.

Definition is_digit (c : ascii) : bool :=
  let n := nat_of_ascii c in (48 <=? n)%nat && (n <=? 57)%nat.

Definition digit_val (c : ascii) : Z := Z.of_nat (nat_of_ascii c) - 48.

Definition to_lower (c : ascii) : ascii :=
  let n := nat_of_ascii c in
  if (65 <=? n)%nat && (n <=? 90)%nat then ascii_of_nat (n + 32) else c.

(** ** [shlex.split(line)]

    The lexer of Python's standard library, as [shlex.split] configures it:
    POSIX mode, [whitespace_split = True], no comment characters, no
    punctuation characters.  [read] is the loop of [shlex.read_token]
    iterated by [list(lex)]: it carries the lexer state, the [quoted] flag and
    the token under construction, and returns the list of tokens or the
    [ValueError] the lexer raises at the end of the input. *)

Module Shlex.

Definition whitespace : list ascii :=
  [" "%char; "009"%char; "013"%char; "010"%char].
Definition quotes : list ascii := [squote; dquote].
Definition escape : list ascii := [backslash].
Definition escapedquotes : list ascii := [dquote].

(** [self.state]: [' '], ['a'], a quote character, or the escape character
    (then [escapedstate] says where to return). *)
Inductive state : Type :=
| StWhite
| StWord
| StQuote (q : ascii)
| StEscape (escapedstate : state).

Definition push (token : string) (c : ascii) : string :=
  (token ++ String c EmptyString)%string.

Definition nonempty (token : string) : bool :=
  match token with EmptyString => false | _ => true end.

(** What [read_token] returns at the end of the input in the states [' ']
    and ['a']: the token if there is one, else the end-of-file marker. *)
Definition at_eof (quoted : bool) (token : string) : list string :=
  if nonempty token || quoted then [token] else [].

Fixpoint read (st : state) (quoted : bool) (token : string) (input : string)
  : res (list string) :=
  match input with
  | EmptyString =>
      match st with
      | StWhite | StWord => Ok (at_eof quoted token)
      | StQuote _ => Raise ValueError      (* No closing quotation *)
      | StEscape _ => Raise ValueError     (* No escaped character *)
      end
  | String c rest =>
      match st with
      | StWhite =>
          if chr_in c whitespace then
            if nonempty token || quoted
            then res_map (cons token) (read StWhite false EmptyString rest)
            else read StWhite quoted token rest
          else if chr_in c escape then read (StEscape StWord) quoted token rest
          else if chr_in c quotes then read (StQuote c) quoted token rest
          else read StWord quoted (String c EmptyString) rest
      | StQuote q =>
          if Ascii.eqb c q then read StWord true token rest
          else if chr_in c escape && chr_in q escapedquotes
          then read (StEscape (StQuote q)) true token rest
          else read (StQuote q) true (push token c) rest
      | StEscape escapedstate =>
          let token :=
            match escapedstate with
            | StQuote q =>
                if negb (Ascii.eqb c backslash) && negb (Ascii.eqb c q)
                then push token backslash else token
            | _ => token
            end in
          read escapedstate quoted (push token c) rest
      | StWord =>
          if chr_in c whitespace then
            if nonempty token || quoted
            then res_map (cons token) (read StWhite false EmptyString rest)
            else read StWhite quoted token rest
          else if chr_in c quotes then read (StQuote c) quoted token rest
          else if chr_in c escape then read (StEscape StWord) quoted token rest
          else read StWord quoted (push token c) rest
      end
  end.

Definition split (s : string) : res (list string) :=
  read StWhite false EmptyString s.

End Shlex.

(** ** [int(s)] and [float(s)] on a string

    Both follow CPython on ASCII text: surrounding whitespace is skipped, a
    sign is optional, single underscores may separate digits.  [py_int] has
    no bound on the number of digits. *)

Definition parse_sign (cs : list ascii) : bool * list ascii :=
  match cs with
  | c :: r =>
      if Ascii.eqb c "+"%char then (false, r)
      else if Ascii.eqb c "-"%char then (true, r)
      else (false, cs)
  | [] => (false, cs)
  end.

Fixpoint skip_space (cs : list ascii) : list ascii :=
  match cs with
  | c :: r => if py_isspace c then skip_space r else cs
  | [] => []
  end.

(** The digit scan of [PyLong_FromString]: digits and single underscores;
    [None] on a doubled or trailing underscore.  Returns the value, the
    number of digits and what follows. *)
Fixpoint scan_int (prev_us : bool) (acc : Z) (n : nat) (cs : list ascii)
  : option (Z * nat * list ascii) :=
  match cs with
  | c :: r =>
      if is_digit c then scan_int false (10 * acc + digit_val c) (S n) r
      else if Ascii.eqb c underscore
      then (if prev_us then None else scan_int true acc n r)
      else (if prev_us then None else Some (acc, n, cs))
  | [] => if prev_us then None else Some (acc, n, [])
  end.

Definition py_int (s : string) : option Z :=
  let '(neg, cs) := parse_sign (skip_space (list_ascii_of_string s)) in
  match cs with
  | [] => None
  | c :: _ =>
      if Ascii.eqb c underscore then None
      else
        match scan_int false 0 0%nat cs with
        | Some (v, S _, rest) =>
            match skip_space rest with
            | [] => Some (if neg then - v else v)
            | _ => None
            end
        | _ => None
        end
  end.

(** [_Py_string_to_number_with_underscores]: an underscore must stand
    between two digits; the underscores are then removed. *)
Fixpoint drop_underscores (prev : ascii) (cs : list ascii) : option (list ascii) :=
  match cs with
  | c :: r =>
      if Ascii.eqb c underscore then
        if is_digit prev then drop_underscores c r else None
      else if Ascii.eqb prev underscore && negb (is_digit c) then None
      else option_map (cons c) (drop_underscores c r)
  | [] => if Ascii.eqb prev underscore then None else Some []
  end.

Fixpoint take_digits (acc : Z) (n : Z) (cs : list ascii) : Z * Z * list ascii :=
  match cs with
  | c :: r => if is_digit c then take_digits (10 * acc + digit_val c) (n + 1) r
              else (acc, n, cs)
  | [] => (acc, n, [])
  end.

Definition lower_string (cs : list ascii) : string :=
  string_of_list_ascii (map to_lower cs).

(** [_Py_parse_inf_or_nan], after the sign. *)
Definition parse_inf_or_nan (neg : bool) (cs : list ascii) : option spec_float :=
  let w := lower_string cs in
  if String.eqb w "inf" || String.eqb w "infinity" then Some (S754_infinity neg)
  else if String.eqb w "nan" then Some S754_nan
  else None.

(** The decimal grammar of [strtod]: digits with an optional point and an
    optional exponent, at least one digit in the mantissa, the whole string
    consumed. *)
Definition parse_decimal (neg : bool) (cs : list ascii) : option spec_float :=
  let '(ip, ni, r1) := take_digits 0 0 cs in
  let '(m, nf, r2) :=
    match r1 with
    | c :: r => if Ascii.eqb c "."%char then take_digits ip 0 r else (ip, 0, r1)
    | [] => (ip, 0, r1)
    end in
  if ni + nf =? 0 then None
  else
    match r2 with
    | [] => Some (F64.of_decimal neg m (- nf))
    | c :: r3 =>
        if Ascii.eqb (to_lower c) "e"%char then
          let '(eneg, r4) := parse_sign r3 in
          let '(ev, ne, r5) := take_digits 0 0 r4 in
          match r5 with
          | [] => if ne =? 0 then None
                  else Some (F64.of_decimal neg m ((if eneg then - ev else ev) - nf))
          | _ => None
          end
        else None
    end.

Definition py_float (s : string) : option spec_float :=
  match drop_underscores "000"%char (list_ascii_of_string s) with
  | None => None
  | Some cs =>
      let body := rev (skip_space (rev (skip_space cs))) in
      let '(neg, r) := parse_sign body in
      match parse_decimal neg r with
      | Some f => Some f
      | None => parse_inf_or_nan neg r
      end
  end.

(** ** [EyeLinkParser.split]

    [int(s)], else [float(s)], else the word itself; [shlex.split] is called
    outside the [try] blocks, so its [ValueError] propagates. *)

Definition coerce (s : string) : pyval :=
  match py_int s with
  | Some z => PInt z
  | None =>
      match py_float s with
      | Some f => PFloat f
      | None => PStr s
      end
  end.

Definition split (line : string) : res (list pyval) :=
  try! words := Shlex.split line in Ok (map coerce words).

(** ** [eyelinkparser/_events.py]

    [fastnumbers] is an optional import: the module-level name is either the
    library or [None].  Only [fastnumbers.isreal] is used, so the library is
    represented by that predicate. *)

Definition fastnumbers_t : Type := option (pyval -> bool).

Module Event.

(** [Event.assert_numeric(l, indices)]: raises [TypeError] at the first index
    that fails the check ([IndexError] when the index is out of range). *)
Fixpoint assert_numeric (fastnumbers : fastnumbers_t) (l : list pyval)
  (indices : list nat) : res unit :=
  match indices with
  | [] => Ok tt
  | i :: indices =>
      try! v := py_index l i in
      let ok :=
        match fastnumbers with
        | Some isreal => isreal v
        | None => negb (negb (is_num v) || py_le0 v)
        end in
      if ok then assert_numeric fastnumbers l indices else Raise TypeError
  end.

End Event.

(** A class of events: the static method [match] and the constructor. *)
Record event_class (R : Type) : Type := EventClass {
  cls_match : list pyval -> bool;
  cls_init : list pyval -> res R
}.

Arguments EventClass {R} _ _.
Arguments cls_match {R} _ _.
Arguments cls_init {R} _ _.

Definition str_is (v : pyval) (s : string) : bool := py_eq v (PStr s).

(** [l[0] == s] guarded by a length test: [false] on the empty list, where
    the source never evaluates it. *)
Definition head_is (l : list pyval) (s : string) : bool :=
  match l with
  | v :: _ => str_is v s
  | [] => false
  end.

Module Blink.

Record inst : Type := Build {
  eye : pyval;
  st : pyval;
  et : pyval;
  duration : pyval
}.

Definition init (fastnumbers : fastnumbers_t) (l : list pyval) : res inst :=
  try! _ := Event.assert_numeric fastnumbers l [2; 3; 4]%nat in
  try! eye := py_index l 1 in
  try! st := py_index l 2 in
  try! et := py_index l 3 in
  try! duration := py_index l 4 in
  Ok (Build eye st et duration).

Definition match_ (l : list pyval) : bool :=
  (length l =? 5)%nat && head_is l "EBLINK".

Definition cls (fastnumbers : fastnumbers_t) : event_class inst :=
  EventClass match_ (init fastnumbers).

End Blink.

Module Fixation.

Record inst : Type := Build {
  eye : pyval;
  x : pyval;
  y : pyval;
  pupil_size : pyval;
  st : pyval;
  et : pyval;
  duration : pyval
}.

Definition init (fastnumbers : fastnumbers_t) (l : list pyval) : res inst :=
  try! _ := Event.assert_numeric fastnumbers l [2; 3; 4; 5; 6; 7]%nat in
  try! eye := py_index l 1 in
  try! x := py_index l 5 in
  try! y := py_index l 6 in
  try! pupil_size := py_index l 7 in
  try! st := py_index l 2 in
  try! et := py_index l 3 in
  try! duration := py_sub et st in
  Ok (Build eye x y pupil_size st et duration).

Definition match_ (l : list pyval) : bool :=
  (length l =? 8)%nat && head_is l "EFIX".

Definition cls (fastnumbers : fastnumbers_t) : event_class inst :=
  EventClass match_ (init fastnumbers).

End Fixation.

Module Sample.

(** An attribute that [__init__] never assigned is [None]: this happens to
    the six per-eye attributes when [eyes_recorded] is none of ['both'],
    ['right'], ['left']. *)
Record inst : Type := Build {
  t : pyval;
  lx : option pyval;
  ly : option pyval;
  lpupil_size : option pyval;
  rx : option pyval;
  ry : option pyval;
  rpupil_size : option pyval
}.

(** [np.nan if v == '.' else v] *)
Definition coord (v : pyval) : pyval :=
  if str_is v "." then np_nan else v.

(** [np.nan if v in (0, '.') else v] *)
Definition pupil (v : pyval) : pyval :=
  if py_eq v (PInt 0) || str_is v "." then np_nan else v.

Definition init (fastnumbers : fastnumbers_t) (eyes_recorded : string)
  (l : list pyval) : res inst :=
  try! _ := Event.assert_numeric fastnumbers l [0%nat] in
  try! t := py_index l 0 in
  if String.eqb eyes_recorded "both" then
    try! l1 := py_index l 1 in
    try! l2 := py_index l 2 in
    try! l3 := py_index l 3 in
    try! l4 := py_index l 4 in
    try! l5 := py_index l 5 in
    try! l6 := py_index l 6 in
    Ok (Build t (Some (coord l1)) (Some (coord l2)) (Some (pupil l3))
                (Some (coord l4)) (Some (coord l5)) (Some (pupil l6)))
  else if String.eqb eyes_recorded "right" then
    try! l1 := py_index l 1 in
    try! l2 := py_index l 2 in
    try! l3 := py_index l 3 in
    Ok (Build t (Some np_nan) (Some np_nan) (Some np_nan)
                (Some (coord l1)) (Some (coord l2)) (Some (pupil l3)))
  else if String.eqb eyes_recorded "left" then
    try! l1 := py_index l 1 in
    try! l2 := py_index l 2 in
    try! l3 := py_index l 3 in
    Ok (Build t (Some (coord l1)) (Some (coord l2)) (Some (pupil l3))
                (Some np_nan) (Some np_nan) (Some np_nan))
  else Ok (Build t None None None None None None).

Definition len_ok (n : nat) : bool :=
  (n =? 5)%nat || (n =? 6)%nat || (n =? 8)%nat || (n =? 9)%nat.

Definition match_ (l : list pyval) : bool :=
  len_ok (length l) &&
  match l with
  | v :: _ => negb (is_str v)
  | [] => false
  end.

Definition cls (fastnumbers : fastnumbers_t) (eyes_recorded : string)
  : event_class inst :=
  EventClass match_ (init fastnumbers eyes_recorded).

End Sample.

Module Saccade.

Record inst : Type := Build {
  sx : pyval;
  sy : pyval;
  ex : pyval;
  ey : pyval;
  size : pyval;
  eye : pyval;
  st : pyval;
  et : pyval;
  duration : pyval
}.

(** [np.sqrt((sx - ex)**2 + (sy - ey)**2)] *)
Definition distance (sx sy ex ey : pyval) : res pyval :=
  try! dx := py_sub sx ex in
  try! dx2 := py_sq dx in
  try! dy := py_sub sy ey in
  try! dy2 := py_sq dy in
  try! s := py_add dx2 dy2 in
  np_sqrt s.

Definition init (fastnumbers : fastnumbers_t) (l : list pyval) : res inst :=
  let at4 (a b c d : nat) :=
    try! sx := py_index l a in
    try! sy := py_index l b in
    try! ex := py_index l c in
    try! ey := py_index l d in
    Ok (sx, sy, ex, ey) in
  try! coords :=
    (if (length l =? 11)%nat then
       try! _ := Event.assert_numeric fastnumbers l [2; 3; 5; 6; 7; 8]%nat in
       at4 5%nat 6%nat 7%nat 8%nat
     else
       try! _ := Event.assert_numeric fastnumbers l [2; 3; 9; 10; 11; 12]%nat in
       at4 9%nat 10%nat 11%nat 12%nat) in
  let '(sx, sy, ex, ey) := coords in
  try! size := distance sx sy ex ey in
  try! eye := py_index l 1 in
  try! st := py_index l 2 in
  try! et := py_index l 3 in
  try! duration := py_sub et st in
  Ok (Build sx sy ex ey size eye st et duration).

Definition match_ (l : list pyval) : bool :=
  ((length l =? 11)%nat || (length l =? 15)%nat) && head_is l "ESACC".

Definition cls (fastnumbers : fastnumbers_t) : event_class inst :=
  EventClass match_ (init fastnumbers).

End Saccade.

(** [event(l, cls, *args)]: [None] when the line does not match or the
    constructor raises; a [TypeError] is swallowed, any other exception is
    reported with [warnings.warn].  The second component lists the
    exceptions warned about. *)
Definition event {R} (l : list pyval) (cls : event_class R)
  : option R * list exn :=
  if negb (cls_match cls l) then (None, [])
  else
    match cls_init cls l with
    | Ok r => (Some r, [])
    | Raise TypeError => (None, [])
    | Raise e => (None, [e])
    end.

Definition sample (fastnumbers : fastnumbers_t) (l : list pyval)
  (eyes_recorded : string) : option Sample.inst * list exn :=
  event l (Sample.cls fastnumbers eyes_recorded).

Definition fixation (fastnumbers : fastnumbers_t) (l : list pyval)
  : option Fixation.inst * list exn :=
  event l (Fixation.cls fastnumbers).

Definition saccade (fastnumbers : fastnumbers_t) (l : list pyval)
  : option Saccade.inst * list exn :=
  event l (Saccade.cls fastnumbers).

Definition blink (fastnumbers : fastnumbers_t) (l : list pyval)
  : option Blink.inst * list exn :=
  event l (Blink.cls fastnumbers).

(** ** [eyelinkparser.py]: the dictionary decoders *)

(** The dictionary [to_sample] returns. *)
Record sample_dict : Type := SampleDict {
  sample_time : pyval;
  sample_x : pyval;
  sample_y : pyval;
  sample_pupil_size : pyval
}.

(** [EyeLinkParser.to_sample(l)] *)
Definition to_sample (l : list pyval) : option sample_dict :=
  match l with
  | l0 :: l1 :: l2 :: l3 :: _ =>
      if negb ((length l =? 5)%nat || (length l =? 9)%nat) || is_str l0 then None
      else if is_str l0 then None
      else if is_str l1 then None
      else if py_eq l3 (PInt 0) || is_str l3 then None
      else Some (SampleDict l0 l1 l2 l3)
  | _ => None
  end.

(** The dictionary [to_fixation] returns. *)
Record fixation_dict : Type := FixationDict {
  fixation_x : pyval;
  fixation_y : pyval;
  fixation_pupilSize : pyval;
  fixation_sTime : pyval;
  fixation_eTime : pyval;
  fixation_duration : pyval
}.

(** [EyeLinkParser.to_fixation(l)]; the subtraction is not guarded. *)
Definition to_fixation (l : list pyval) : res (option fixation_dict) :=
  if negb ((length l =? 8)%nat) || negb (head_is l "EFIX") then Ok None
  else
    try! x := py_index l 5 in
    try! y := py_index l 6 in
    try! p := py_index l 7 in
    try! sTime := py_index l 2 in
    try! eTime := py_index l 3 in
    try! duration := py_sub eTime sTime in
    Ok (Some (FixationDict x y p sTime eTime duration)).

(** The dictionary [to_saccade] returns. *)
Record saccade_dict : Type := SaccadeDict {
  saccade_sx : pyval;
  saccade_sy : pyval;
  saccade_ex : pyval;
  saccade_ey : pyval;
  saccade_size : pyval;
  saccade_sTime : pyval;
  saccade_eTime : pyval;
  saccade_duration : pyval
}.

(** [EyeLinkParser.to_saccade(l)]; the bare [except] turns every exception
    into [None]. *)
Definition to_saccade (l : list pyval) : option saccade_dict :=
  if (length l <? 11)%nat || negb (head_is l "ESACC") then None
  else
    let o := if (length l =? 15)%nat then 9%nat else 5%nat in
    let body :=
      try! sx := py_index l o in
      try! sy := py_index l (o + 1) in
      try! ex := py_index l (o + 2) in
      try! ey := py_index l (o + 3) in
      try! size := Saccade.distance sx sy ex ey in
      try! sTime := py_index l 2 in
      try! eTime := py_index l 3 in
      try! duration := py_sub eTime sTime in
      Ok (SaccadeDict sx sy ex ey size sTime eTime duration) in
    match body with
    | Ok d => Some d
    | Raise _ => None
    end.

(** ** The result table

    Modelled from the spec: the table container ([DataMatrix],
    [SeriesColumn]) is an external collaborator of which the parser needs
    only "create table", "append row", "set named scalar cell" and "set named
    series cell of given length with given values".  A one-row table is a
    finite map from column names to cells; a table is the list of its rows,
    and a row without a cell for a column holds no value there.  Column names
    are text: setting a cell under a name that is not text is refused with a
    [TypeError], and [None] is never a column. *)

Inductive cell : Type :=
| Scalar (v : pyval)
| Series (values : list pyval).

Abbreviation row := (gmap string cell).

(** [dm[name] = c] *)
Definition dm_set (dm : row) (name : pyval) (c : cell) : res row :=
  match name with
  | PStr s => Ok (<[s := c]> dm)
  | _ => Raise TypeError
  end.

(** [name in dm] *)
Definition dm_contains (dm : row) (name : option pyval) : bool :=
  match name with
  | Some (PStr s) => bool_decide (is_Some (dm !! s))
  | _ => false
  end.

(** ** [EyeLinkParser]: the trial/phase loop

    The attributes of the parser object that [parse_file] and the methods it
    calls read and write.  [trialid] and [current_phase] hold a token or
    [None]. *)

Record parser : Type := Parser {
  filedm : list row;
  path : string;
  trialdm : row;
  trialid : option pyval;
  current_phase : option pyval;
  ptrace : list pyval;
  xtrace : list pyval;
  ytrace : list pyval
}.

Definition set_filedm (self : parser) (v : list row) : parser :=
  Parser v (path self) (trialdm self) (trialid self) (current_phase self)
    (ptrace self) (xtrace self) (ytrace self).
Definition set_path (self : parser) (v : string) : parser :=
  Parser (filedm self) v (trialdm self) (trialid self) (current_phase self)
    (ptrace self) (xtrace self) (ytrace self).
Definition set_trialdm (self : parser) (v : row) : parser :=
  Parser (filedm self) (path self) v (trialid self) (current_phase self)
    (ptrace self) (xtrace self) (ytrace self).
Definition set_trialid (self : parser) (v : option pyval) : parser :=
  Parser (filedm self) (path self) (trialdm self) v (current_phase self)
    (ptrace self) (xtrace self) (ytrace self).
Definition set_current_phase (self : parser) (v : option pyval) : parser :=
  Parser (filedm self) (path self) (trialdm self) (trialid self) v
    (ptrace self) (xtrace self) (ytrace self).
Definition set_traces (self : parser) (p x y : list pyval) : parser :=
  Parser (filedm self) (path self) (trialdm self) (trialid self)
    (current_phase self) p x y.

(** [len(l) == n and l[0] == u'MSG' and l[2] == kw] *)
Definition is_msg (n : nat) (kw : string) (l : list pyval) : bool :=
  (length l =? n)%nat &&
  match l with
  | l0 :: _ :: l2 :: _ => str_is l0 "MSG" && str_is l2 kw
  | _ => false
  end.

(** [is_start_trial(l)]: the answer and the updated parser. *)
Definition is_start_trial (self : parser) (l : list pyval) : bool * parser :=
  if is_msg 4 "start_trial" l then
    (true, set_current_phase (set_trialid self (nth_error l 3)) None)
  else (false, self).

(** [is_end_trial(l)] *)
Definition is_end_trial (self : parser) (l : list pyval) : bool * parser :=
  if is_msg 3 "end_trial" l then (true, set_trialid self None)
  else (false, self).

(** [parse_variable(l)] *)
Definition parse_variable (self : parser) (l : list pyval) : res parser :=
  if is_msg 5 "var" l then
    try! name := py_index l 3 in
    try! value := py_index l 4 in
    try! dm := dm_set (trialdm self) name (Scalar value) in
    Ok (set_trialdm self dm)
  else Ok self.

(** The loop of [parse_phase] over the three prefixes: each trace becomes a
    series cell named [prefix + self.current_phase]. *)
Fixpoint flush_traces (dm : row) (phase : pyval)
  (traces : list (string * list pyval)) : res row :=
  match traces with
  | [] => Ok dm
  | (prefix, trace) :: traces =>
      try! colname := py_add (PStr prefix) phase in
      try! dm := dm_set dm colname (Series trace) in
      flush_traces dm phase traces
  end.

(** [parse_phase(l)] *)
Definition parse_phase (self : parser) (l : list pyval) : res parser :=
  if is_msg 4 "start_phase" l then
    try! _ := py_assert (match current_phase self with None => true | _ => false end) in
    try! _ := py_assert (negb (dm_contains (trialdm self) (current_phase self))) in
    Ok (set_traces (set_current_phase self (nth_error l 3)) [] [] [])
  else if is_msg 4 "end_phase" l then
    try! l3 := py_index l 3 in
    try! _ := py_assert (match current_phase self with
                         | Some p => py_eq p l3
                         | None => false
                         end) in
    match current_phase self with
    | Some phase =>
        try! dm := flush_traces (trialdm self) phase
                     [("ptrace_", ptrace self); ("xtrace_", xtrace self);
                      ("ytrace_", ytrace self)] in
        Ok (set_current_phase (set_trialdm self dm) None)
    | None => Raise AssertionError
    end
  else
    match current_phase self with
    | None => Ok self
    | Some _ =>
        match to_sample l with
        | None => Ok self
        | Some s =>
            Ok (set_traces self (ptrace self ++ [sample_pupil_size s])
                  (xtrace self ++ [sample_x s]) (ytrace self ++ [sample_y s]))
        end
    end.

(** The overridable hooks; in [EyeLinkParser] itself they do nothing. *)
Definition on_start_file (self : parser) : parser := self.
Definition on_end_file (self : parser) : parser := self.
Definition on_start_trial (self : parser) : parser := self.
Definition on_end_trial (self : parser) : parser := self.
Definition parse_line (self : parser) (l : list pyval) : parser := self.

(** The [for line in f] loop of [parse_trial].  [f] is the file iterator:
    the loop returns what it has not consumed, so that [parse_file] goes on
    from there. *)
Fixpoint parse_trial_loop (self : parser) (f : list string)
  : res (parser * list string) :=
  match f with
  | [] => Ok (self, [])
  | line :: f =>
      try! l := split line in
      let '(stop, self) := is_end_trial self l in
      if stop then Ok (self, f)
      else
        try! self := parse_variable self l in
        try! self := parse_phase self l in
        parse_trial_loop (parse_line self l) f
  end.

(** [DataMatrix(length=1)] with the attributes [path] and [trialid] set;
    [trialid] is [None] when no [start_trial] marker has been seen. *)
Definition new_trialdm (self : parser) : row :=
  let dm : row := <["path" := Scalar (PStr (path self))]> ∅ in
  match trialid self with
  | Some v => <["trialid" := Scalar v]> dm
  | None => dm
  end.

(** [parse_trial(f)]: the parser, the returned [trialdm] and the rest of
    the iterator. *)
Definition parse_trial (self : parser) (f : list string)
  : res (parser * row * list string) :=
  let self := set_trialdm self (new_trialdm self) in
  let self := on_start_trial self in
  try! r := parse_trial_loop self f in
  let '(self, f) := r in
  let self := on_end_trial self in
  Ok (self, trialdm self, f).

(** The [for line in f] loop of [parse_file], with the counter [ntrial].
    Every round consumes a line, so [length f] rounds are enough; [fuel]
    bounds the number of rounds. *)
Fixpoint parse_file_loop (fuel : nat) (self : parser) (ntrial : nat)
  (f : list string) : res (parser * nat) :=
  match fuel, f with
  | S fuel, line :: f =>
      try! l := split line in
      let '(start, self) := is_start_trial self l in
      if start then
        try! r := parse_trial self f in
        let '(self, dm, f) := r in
        parse_file_loop fuel (set_filedm self (filedm self ++ [dm])) (S ntrial) f
      else parse_file_loop fuel self ntrial f
  | _, _ => Ok (self, ntrial)
  end.

(** A parser object before its first file: no attribute is set yet. *)
Definition new_parser : parser :=
  Parser [] EmptyString ∅ None None [] [] [].

(** [parse_file(path)], on the lines of the file: the table of the file
    (its rows) and the number of trials reported. *)
Definition parse_file (self : parser) (path : string) (lines : list string)
  : res (parser * list row * nat) :=
  let self := set_path (set_filedm self []) path in
  let self := on_start_file self in
  try! r := parse_file_loop (length lines) self 0%nat lines in
  let '(self, ntrial) := r in
  let self := on_end_file self in
  Ok (self, filedm self, ntrial).

(** ** [EyeLinkParser.__init__]: the folder

    The folder is given by what [os.listdir] returns, each name with the
    lines that [open] yields for the joined path. *)

(** [s.endswith(suffix)] *)
Definition endswith (s suffix : string) : bool :=
  let n := String.length s in
  let m := String.length suffix in
  (m <=? n)%nat && String.eqb (substring (n - m) m s) suffix.

(** [b.startswith('/')] *)
Definition startswith_sep (b : string) : bool :=
  match b with
  | String c _ => Ascii.eqb c "/"%char
  | EmptyString => false
  end.

(** [os.path.join(a, b)] of [posixpath]. *)
Definition os_path_join (a b : string) : string :=
  if startswith_sep b then b
  else if negb (Shlex.nonempty a) || endswith a "/" then (a ++ b)%string
  else (a ++ "/" ++ b)%string.

(** The loop of [__init__]: [self.dm <<= self.parse_file(path)] for every
    name with the extension.  The parser object is the same for all files. *)
Fixpoint init_loop (self : parser) (dm : list row) (folder ext : string)
  (listing : list (string * list string)) : res (parser * list row) :=
  match listing with
  | [] => Ok (self, dm)
  | (fname, lines) :: listing =>
      if negb (endswith fname ext) then init_loop self dm folder ext listing
      else
        let path := os_path_join folder fname in
        try! r := parse_file self path lines in
        let '(self, filedm, _) := r in
        init_loop self (dm ++ filedm) folder ext listing
  end.

(** [EyeLinkParser(folder, ext)]: the parser and its table [dm]. *)
Definition EyeLinkParser_init (folder ext : string)
  (listing : list (string * list string)) : res (parser * list row) :=
  init_loop new_parser [] folder ext listing.

(** One round of the loop of [parse_trial] on a line that is not the
    [end_trial] marker, on the tokens of the line. *)
Definition trial_step (self : parser) (l : list pyval) : res parser :=
  try! self := parse_variable self l in
  try! self := parse_phase self l in
  Ok (parse_line self l).

(** The rounds of [trial_step] over a sequence of tokenized lines. *)
Fixpoint trial_steps (self : parser) (ls : list (list pyval)) : res parser :=
  match ls with
  | [] => Ok self
  | l :: ls => try! self := trial_step self l in trial_steps self ls
  end.

(** The tokens of each line of a sequence. *)
Fixpoint split_all (lines : list string) : res (list (list pyval)) :=
  match lines with
  | [] => Ok []
  | line :: lines =>
      try! l := split line in
      try! ls := split_all lines in
      Ok (l :: ls)
  end.

(** The control markers that end a trial or open or close a phase. *)
Definition is_marker (l : list pyval) : bool :=
  is_msg 3 "end_trial" l || is_msg 4 "start_phase" l || is_msg 4 "end_phase" l.

(** A raw line that is a given marker. *)
Definition marker_line (n : nat) (kw : string) (line : string) : bool :=
  match split line with
  | Ok l => is_msg n kw l
  | Raise _ => false
  end.

(** The traces of a phase in a row: the three series cells named after the
    phase. *)
Definition phase_traces (dm : row) (name : string)
  : option (list pyval * list pyval * list pyval) :=
  match dm !! ("ptrace_" ++ name)%string, dm !! ("xtrace_" ++ name)%string,
        dm !! ("ytrace_" ++ name)%string with
  | Some (Series p), Some (Series x), Some (Series y) => Some (p, x, y)
  | _, _, _ => None
  end.

(** The state in which the lexer of [shlex.split] reaches the end of the
    input; it depends on the characters read only, not on the token under
    construction. *)
Fixpoint end_state (st : Shlex.state) (input : string) : Shlex.state :=
  match input with
  | EmptyString => st
  | String c rest =>
      match st with
      | Shlex.StWhite =>
          if chr_in c Shlex.whitespace then end_state Shlex.StWhite rest
          else if chr_in c Shlex.escape then end_state (Shlex.StEscape Shlex.StWord) rest
          else if chr_in c Shlex.quotes then end_state (Shlex.StQuote c) rest
          else end_state Shlex.StWord rest
      | Shlex.StWord =>
          if chr_in c Shlex.whitespace then end_state Shlex.StWhite rest
          else if chr_in c Shlex.quotes then end_state (Shlex.StQuote c) rest
          else if chr_in c Shlex.escape then end_state (Shlex.StEscape Shlex.StWord) rest
          else end_state Shlex.StWord rest
      | Shlex.StQuote q =>
          if Ascii.eqb c q then end_state Shlex.StWord rest
          else if chr_in c Shlex.escape && chr_in q Shlex.escapedquotes
          then end_state (Shlex.StEscape (Shlex.StQuote q)) rest
          else end_state (Shlex.StQuote q) rest
      | Shlex.StEscape escapedstate => end_state escapedstate rest
      end
  end.

(** A line that ends inside a quotation or right after a backslash. *)
Definition unterminated (line : string) : bool :=
  match end_state Shlex.StWhite line with
  | Shlex.StQuote _ | Shlex.StEscape _ => true
  | _ => false
  end.

(** A line without quotation marks and without backslashes. *)
Fixpoint unquoted (line : string) : bool :=
  match line with
  | EmptyString => true
  | String c rest =>
      negb (chr_in c Shlex.quotes) && negb (chr_in c Shlex.escape) && unquoted rest
  end.

(** A line of whitespace only. *)
Fixpoint blank (line : string) : bool :=
  match line with
  | EmptyString => true
  | String c rest => chr_in c Shlex.whitespace && blank rest
  end.

(** The coercion of one word, as the specification words it: an integer if
    the word parses as one, else a real if it parses as one, else the text. *)
Definition coerced (word : string) (tok : pyval) : Prop :=
  match py_int word with
  | Some z => tok = PInt z
  | None =>
      match py_float word with
      | Some f => tok = PFloat f
      | None => tok = PStr word
      end
  end.

(** The number of tokens [Sample.__init__] reads for a value of
    [eyes_recorded]. *)
Definition sample_needs (eyes : string) : nat :=
  if String.eqb eyes "both" then 7%nat
  else if String.eqb eyes "right" || String.eqb eyes "left" then 4%nat
  else 1%nat.

(** Which token each per-eye attribute of a [Sample] is read from, for the
    three values of [eyes_recorded] that [Sample.__init__] handles: the index
    in the line, the attribute, and whether it is a pupil size. *)
Definition sample_layout (eyes_recorded : string)
  : list (nat * (Sample.inst -> option pyval) * bool) :=
  if String.eqb eyes_recorded "both" then
    [ (1%nat, Sample.lx, false); (2%nat, Sample.ly, false);
      (3%nat, Sample.lpupil_size, true);
      (4%nat, Sample.rx, false); (5%nat, Sample.ry, false);
      (6%nat, Sample.rpupil_size, true) ]
  else if String.eqb eyes_recorded "right" then
    [ (1%nat, Sample.rx, false); (2%nat, Sample.ry, false);
      (3%nat, Sample.rpupil_size, true) ]
  else if String.eqb eyes_recorded "left" then
    [ (1%nat, Sample.lx, false); (2%nat, Sample.ly, false);
      (3%nat, Sample.lpupil_size, true) ]
  else [].

(** A missing measurement: the single-dot placeholder, or a pupil size equal
    to zero. *)
Definition is_missing (is_pupil : bool) (tok : pyval) : bool :=
  str_is tok "." || (is_pupil && py_eq tok (PInt 0)).

(** The line the instrument writes during a blink (docstring of
    [to_sample]), tokenized. *)
Definition blink_sample_line : list pyval :=
  [PInt 661781; PStr "."; PStr "."; PFloat (S754_zero false); PStr "..."].

(** The example line of the docstring of [Blink], tokenized. *)
Definition eblink_line : list pyval :=
  [PStr "EBLINK"; PStr "R"; PInt 5294685; PInt 5294774; PInt 90].

(** A saccade line in the short format, with integer coordinates, and the
    record it decodes to. *)
Definition esacc_line : list pyval :=
  [PStr "ESACC"; PStr "R"; PInt 3216221; PInt 3216233; PInt 13;
   PInt 515; PInt 381; PInt 512; PInt 385; PFloat (F64.of_decimal false 51 (-2));
   PInt 58].

Definition esacc_inst : Saccade.inst :=
  Saccade.Build (PInt 515) (PInt 381) (PInt 512) (PInt 385)
    (PFloat (F64.of_decimal false 5 0))
    (PStr "R") (PInt 3216221) (PInt 3216233) (PInt 12).

(** A parser in the middle of a trial, with the phase [probe] open and one
    sample accumulated. *)
Definition in_probe : parser :=
  Parser [] "data/s01.asc"
    (<["trialid" := Scalar (PInt 1)]> (<["path" := Scalar (PStr "data/s01.asc")]> ∅))
    (Some (PInt 1)) (Some (PStr "probe"))
    [PFloat (F64.of_decimal false 21410 (-1))]
    [PFloat (F64.of_decimal false 1682 (-1))]
    [PFloat (F64.of_decimal false 4065 (-1))].

(** A trial that opens the phase [probe] twice: the first time with one
    sample, the second time with none. *)
Definition reuse_lines : list string :=
  [ "MSG 100 start_trial 1";
    "MSG 101 start_phase probe";
    "4815155 168.2 406.5 2141.0 ...";
    "MSG 102 end_phase probe";
    "MSG 103 start_phase probe";
    "MSG 104 end_phase probe";
    "MSG 105 end_trial" ].

(** The lines between the markers of a phase: two samples, a variable, a
    line of the wrong length and a blink sample. *)
Definition probe_body : list string :=
  [ "4815155 168.2 406.5 2141.0 ...";
    "MSG 4815156 var rt 805";
    "4815157 168.4 406.1";
    "4815158 . . 0.0 ...";
    "4815159 169.0 407.5 2139.0 ..." ].

(** The table and the trial count that [parse_file] returns, without the
    parser. *)
Definition table_of (r : res (parser * list row * nat)) : res (list row * nat) :=
  res_map (fun '(_, rows, ntrial) => (rows, ntrial)) r.

(** Two outcomes that raise the same exception or return related values. *)
Definition res_rel {A} (R : A -> A -> Prop) (x y : res A) : Prop :=
  match x, y with
  | Ok a, Ok b => R a b
  | Raise e, Raise e' => e = e'
  | _, _ => False
  end.

(** Two parsers that the loop of [parse_trial] cannot tell apart: they agree
    on everything but the traces, and on the traces too while a phase is
    open. *)
Definition sim (a b : parser) : Prop :=
  filedm a = filedm b /\ path a = path b /\ trialdm a = trialdm b /\
  trialid a = trialid b /\ current_phase a = current_phase b /\
  (current_phase a = None \/
   (ptrace a = ptrace b /\ xtrace a = xtrace b /\ ytrace a = ytrace b)).

(** Two parsers that the loop of [parse_file] cannot tell apart between two
    trials. *)
Definition sim_file (a b : parser) : Prop :=
  filedm a = filedm b /\ path a = path b.

(** The table of a folder, file by file, each file parsed by a parser of its
    own. *)
Fixpoint corpus_rows (folder ext : string)
  (listing : list (string * list string)) : res (list row) :=
  match listing with
  | [] => Ok []
  | (fname, lines) :: listing =>
      if negb (endswith fname ext) then corpus_rows folder ext listing
      else
        try! t := table_of
                    (parse_file new_parser (os_path_join folder fname) lines) in
        try! rest := corpus_rows folder ext listing in
        Ok (fst t ++ rest)
  end.

(** What the three traces of a parser hold: as many entries each, numbers
    other than zero in the pupil trace, numbers in the x trace. *)
Definition traces_ok (self : parser) : Prop :=
  length (ptrace self) = length (xtrace self) /\
  length (xtrace self) = length (ytrace self) /\
  Forall (fun v => is_str v = false /\ py_eq v (PInt 0) = false) (ptrace self) /\
  Forall (fun v => is_str v = false) (xtrace self).

(** A row without series cells. *)
Definition all_scalar (dm : row) : Prop :=
  forall k c, dm !! k = Some c -> exists v, c = Scalar v.

(** The test of [assert_numeric] without [fastnumbers], negated as the
    source writes it: [not (not isinstance(v, (int, float)) or v <= 0)].  It
    holds of a number that is not less than or equal to zero; [nan <= 0] is
    false, so it holds of [nan] too. *)
Definition numeric_not_le0 (v : pyval) : bool :=
  negb (negb (is_num v) || py_le0 v).

(** What passes that test: an integer greater than zero, a float greater
    than zero, or [nan]. *)
Definition gt_zero_or_nan (v : pyval) : Prop :=
  match v with
  | PInt z => 0 < z
  | PFloat f => f = S754_nan \/ SFltb (S754_zero false) f = true
  | PStr _ => False
  end.




(** A blink line whose start time is the token [nan]. *)
Definition eblink_nan_line : list pyval :=
  [PStr "EBLINK"; PStr "R"; PFloat S754_nan; PInt 5294774; PInt 90].

(** A folder with a log and a file of another kind. *)
Definition folder_listing : list (string * list string) :=
  [ ("notes.txt", ["MSG 1 start_trial 9"; "MSG 2 end_trial"]);
    ("s01.asc", ["MSG 100 start_trial 1"; "MSG 101 var cond A"; "MSG 104 end_trial"]);
    ("s02.asc", ["MSG 100 start_trial 1"; "MSG 101 var cond B"]) ].

(** ** The concrete scenario of the specification *)

(** The six lines as the specification writes them: the sample line has four
    fields. *)
Definition scenario : list string :=
  [ "MSG 100 start_trial 1";
    "MSG 101 var cond A";
    "MSG 102 start_phase probe";
    "4815155 168.2 406.5 2141.0";
    "MSG 103 end_phase probe";
    "MSG 104 end_trial" ].

(** The same lines with the sample line in the format of the instrument, as
    the docstring of [to_sample] shows it: a fifth field follows the pupil
    size. *)
Definition scenario_asc : list string :=
  [ "MSG 100 start_trial 1";
    "MSG 101 var cond A";
    "MSG 102 start_phase probe";
    "4815155 168.2 406.5 2141.0 ...";
    "MSG 103 end_phase probe";
    "MSG 104 end_trial" ].

(** The float written [m * 10 ^ e] in decimal. *)
Definition dec (m e : Z) : pyval := PFloat (F64.of_decimal false m e).

(** The row of the scenario with the given traces. *)
Definition scenario_row (file : string) (p x y : list pyval) : row :=
  <["ytrace_probe" := Series y]>
    (<["xtrace_probe" := Series x]>
       (<["ptrace_probe" := Series p]>
          (<["cond" := Scalar (PStr "A")]>
             (<["trialid" := Scalar (PInt 1)]>
                (<["path" := Scalar (PStr file)]> ∅))))).

(** * Properties *)

(** ** Sanity checks of the number model *)

Example of_decimal_168_2 :
  F64.of_decimal false 1682 (-1) = Prim2SF 168.2%float.
Proof. vm_compute. reflexivity. Qed.

Example of_decimal_406_5 :
  F64.of_decimal false 4065 (-1) = Prim2SF 406.5%float.
Proof. vm_compute. reflexivity. Qed.

Example of_decimal_2141_0 :
  F64.of_decimal false 21410 (-1) = Prim2SF 2141.0%float.
Proof. vm_compute. reflexivity. Qed.

Example split_sample_line :
  split "4815155 168.2 406.5 2141.0 ..."
  = Ok [PInt 4815155; dec 1682 (-1); dec 4065 (-1); dec 21410 (-1); PStr "..."].
Proof. vm_compute. reflexivity. Qed.

(** ** C1: the concrete scenario *)

(** C1, as stated, fails: with the four-field sample line of the
    specification the sample is not accepted ([to_sample] wants five or nine
    tokens), so the one row produced has three empty traces. *)
Lemma scenario_traces_are_empty :
  exists self,
    parse_file new_parser "data/s01.asc" scenario
    = Ok (self, [scenario_row "data/s01.asc" [] [] []], 1%nat).
Proof. eexists. vm_compute. reflexivity. Qed.

(** C1 (amended): with the sample line in the five-field format of the
    instrument, parsing the scenario produces exactly one trial row, with
    [cond = "A"], [ptrace_probe = [2141.0]], [xtrace_probe = [168.2]] and
    [ytrace_probe = [406.5]] (each trace of length 1), beside the cells
    [path] and [trialid] of the row. *)
Theorem scenario_asc_row (file : string) :
  exists self,
    parse_file new_parser file scenario_asc
    = Ok (self,
          [scenario_row file [dec 21410 (-1)] [dec 1682 (-1)] [dec 4065 (-1)]],
          1%nat).
Proof. eexists. vm_compute. reflexivity. Qed.

(** ** Exceptions and values: basic facts *)

Lemma res_bind_Ok {A B} (r : res A) (k : A -> res B) (b : B) :
  res_bind r k = Ok b -> exists a, r = Ok a /\ k a = Ok b.
Proof. destruct r as [a|e]; simpl; [eauto | discriminate]. Qed.

(** Peels the binds of a computation known to succeed. *)
Ltac bind_inv H :=
  repeat match type of H with
         | res_bind _ _ = Ok _ =>
             let a := fresh "a" in
             let E := fresh "E" in
             apply res_bind_Ok in H; destruct H as (a & E & H)
         end.

Lemma py_index_Some (l : list pyval) (i : nat) (v : pyval) :
  py_index l i = Ok v <-> nth_error l i = Some v.
Proof.
  unfold py_index. destruct (nth_error l i); split; intros H;
    try discriminate; congruence.
Qed.

Lemma str_is_eq (v : pyval) (s : string) : str_is v s = true <-> v = PStr s.
Proof.
  destruct v as [z|f|t]; simpl; split; intros H; try discriminate.
  - apply String.eqb_eq in H. congruence.
  - inversion H; subst. apply String.eqb_refl.
Qed.

Lemma py_sub_int (a b : Z) : py_sub (PInt a) (PInt b) = Ok (PInt (a - b)).
Proof. reflexivity. Qed.

(** ** The event classifier *)

Lemma event_Some {R} (l : list pyval) (cls : event_class R) (r : R) :
  fst (event l cls) = Some r <-> cls_match cls l = true /\ cls_init cls l = Ok r.
Proof.
  unfold event. destruct (cls_match cls l); simpl.
  - destruct (cls_init cls l) as [r'|[]]; simpl; split;
      try (intros [_ H]; congruence); try discriminate;
      try (intros H; inversion H; auto).
  - split; [discriminate | intros [H _]; discriminate].
Qed.

Lemma event_no_match {R} (l : list pyval) (cls : event_class R) :
  cls_match cls l = false -> event l cls = (None, []).
Proof. unfold event. intros ->. reflexivity. Qed.

Lemma sample_coord_missing (tok : pyval) :
  str_is tok "." = true -> Sample.coord tok = np_nan.
Proof. unfold Sample.coord. intros ->. reflexivity. Qed.

Lemma sample_pupil_missing (tok : pyval) :
  is_missing true tok = true -> Sample.pupil tok = np_nan.
Proof.
  unfold is_missing, Sample.pupil. simpl. rewrite orb_comm. intros ->. reflexivity.
Qed.

(** What a successful [Sample.__init__] has stored, attribute by attribute. *)
Lemma sample_init_layout fn eyes l s i get is_pupil :
  Sample.init fn eyes l = Ok s ->
  In (i, get, is_pupil) (sample_layout eyes) ->
  exists tok, nth_error l i = Some tok /\
              get s = Some (if is_pupil then Sample.pupil tok else Sample.coord tok).
Proof.
  unfold Sample.init, sample_layout. intros H Hin.
  bind_inv H.
  destruct (String.eqb eyes "both").
  { bind_inv H. inversion H; subst; clear H.
    repeat match goal with E : py_index _ _ = Ok _ |- _ => apply py_index_Some in E end.
    simpl in Hin.
    repeat (destruct Hin as [Hin|Hin]; [inversion Hin; subst; eauto|]).
    contradiction. }
  destruct (String.eqb eyes "right").
  { bind_inv H. inversion H; subst; clear H.
    repeat match goal with E : py_index _ _ = Ok _ |- _ => apply py_index_Some in E end.
    simpl in Hin.
    repeat (destruct Hin as [Hin|Hin]; [inversion Hin; subst; eauto|]).
    contradiction. }
  destruct (String.eqb eyes "left").
  { bind_inv H. inversion H; subst; clear H.
    repeat match goal with E : py_index _ _ = Ok _ |- _ => apply py_index_Some in E end.
    simpl in Hin.
    repeat (destruct Hin as [Hin|Hin]; [inversion Hin; subst; eauto|]).
    contradiction. }
  contradiction.
Qed.

(** [Sample.__init__] looks at the tokens after the first only through their
    presence: it succeeds when the first token passes [assert_numeric] and the
    line is long enough for the eyes recorded. *)
Lemma sample_init_accepts fn eyes l :
  (exists s, Sample.init fn eyes l = Ok s) <->
  Event.assert_numeric fn l [0%nat] = Ok tt /\ (sample_needs eyes <= length l)%nat.
Proof.
  unfold Sample.init, sample_needs.
  destruct (Event.assert_numeric fn l [0%nat]) as [[]|e] eqn:Hn; simpl.
  2:{ split; [intros [s H]; discriminate | intros [H _]; discriminate]. }
  destruct l as [|t [|a1 [|a2 [|a3 [|a4 [|a5 [|a6 rest]]]]]]];
    try discriminate Hn;
    destruct (String.eqb eyes "both"), (String.eqb eyes "right"),
      (String.eqb eyes "left"); simpl;
    (split;
     [ intros [s H]; first [discriminate H | split; [reflexivity | lia]]
     | intros [_ H]; first [lia | eauto] ]).
Qed.

Lemma assert_numeric_head fn l l' :
  nth_error l 0 = nth_error l' 0 ->
  Event.assert_numeric fn l [0%nat] = Event.assert_numeric fn l' [0%nat].
Proof.
  intros H. unfold Event.assert_numeric, py_index. rewrite H. reflexivity.
Qed.

Lemma sample_match_head l l' :
  length l = length l' -> nth_error l 0 = nth_error l' 0 ->
  Sample.match_ l = Sample.match_ l'.
Proof.
  intros Hlen H. unfold Sample.match_. rewrite Hlen.
  destruct l, l'; simpl in *; try discriminate; congruence.
Qed.

Lemma sample_accepted_iff fn eyes l :
  is_Some (fst (sample fn l eyes)) <->
  Sample.match_ l = true /\ Event.assert_numeric fn l [0%nat] = Ok tt /\
  (sample_needs eyes <= length l)%nat.
Proof.
  unfold sample, is_Some. split.
  - intros [s Hs]. apply event_Some in Hs as [Hm Hi].
    split; [exact Hm|]. apply sample_init_accepts. eauto.
  - intros [Hm Hrest]. apply sample_init_accepts in Hrest as [s Hs].
    exists s. apply event_Some. split; assumption.
Qed.

(** C3: [Sample.match] succeeds exactly on the lines of 5, 6, 8 or 9 tokens
    whose first token is not text; every other line is reported as
    not-a-sample, by the event classifier ([sample] returns [None], without
    a warning) and by [to_sample] alike. *)
Theorem sample_match_shape (l : list pyval) :
  (Sample.match_ l = true <->
   (length l = 5 \/ length l = 6 \/ length l = 8 \/ length l = 9)%nat /\
   exists v rest, l = v :: rest /\ is_str v = false) /\
  (Sample.match_ l = false ->
   (forall fn eyes, sample fn l eyes = (None, [])) /\ to_sample l = None).
Proof.
  split.
  - unfold Sample.match_, Sample.len_ok. split.
    + intros H. apply andb_true_iff in H as [Hlen Hhd]. split.
      * repeat (apply orb_true_iff in Hlen as [Hlen|Hlen]);
          apply Nat.eqb_eq in Hlen; lia.
      * destruct l as [|v rest]; [discriminate|].
        exists v, rest. split; [reflexivity|]. now apply negb_true_iff.
    + intros (Hlen & v & rest & -> & Hv). rewrite Hv. simpl negb.
      rewrite andb_true_r.
      destruct Hlen as [H|[H|[H|H]]]; rewrite H; reflexivity.
  - intros H. split.
    + intros fn eyes. apply event_no_match. exact H.
    + unfold Sample.match_, Sample.len_ok in H. unfold to_sample.
      destruct l as [|l0 [|l1 [|l2 [|l3 rest]]]]; try reflexivity.
      destruct (length (l0 :: l1 :: l2 :: l3 :: rest) =? 5)%nat eqn:E5;
        destruct (length (l0 :: l1 :: l2 :: l3 :: rest) =? 9)%nat eqn:E9;
        destruct (is_str l0); simpl in *; try reflexivity;
        rewrite ?E5, ?E9 in H; simpl in H; rewrite ?orb_true_r in H;
        discriminate.
Qed.

Lemma sample_match_shape_witness :
  (forall fn eyes,
     sample fn [PStr "MSG"; PInt 1; PStr "var"; PStr "a"; PInt 2] eyes = (None, [])) /\
  to_sample [PStr "MSG"; PInt 1; PStr "var"; PStr "a"; PInt 2] = None.
Proof.
  apply (sample_match_shape [PStr "MSG"; PInt 1; PStr "var"; PStr "a"; PInt 2]).
  reflexivity.
Defined.


(** ** C2: missing measurements in a sample *)

(** C2, as stated, fails on [to_sample], the decoder the trial loop uses: the
    blink line of the instrument matches [Sample.match] and is rejected as a
    whole, and a line whose [y] token is the placeholder is accepted with the
    literal text recorded. *)
Lemma to_sample_does_not_record_nan :
  Sample.match_ blink_sample_line = true /\
  to_sample blink_sample_line = None /\
  to_sample [PInt 661781; dec 1682 (-1); PStr "."; dec 21410 (-1); PStr "..."]
  = Some (SampleDict (PInt 661781) (dec 1682 (-1)) (PStr ".") (dec 21410 (-1))).
Proof. vm_compute. repeat split. Qed.

(** C2 (amended): for every line the event classifier decodes as a [Sample]
    ([sample(l, eyes_recorded)]), every per-eye attribute read from a token
    that is the single-dot placeholder, and every pupil-size attribute read
    from a token equal to zero, holds [np.nan], which is neither a numeric
    zero nor text; and whether a line is decoded depends only on its length
    and its first token, so no value of a per-eye token rejects the line. *)
Theorem sample_missing_is_nan fn eyes (l : list pyval) :
  (forall s i get is_pupil tok,
     fst (sample fn l eyes) = Some s ->
     In (i, get, is_pupil) (sample_layout eyes) ->
     nth_error l i = Some tok ->
     is_missing is_pupil tok = true ->
     get s = Some np_nan /\ py_eq np_nan (PInt 0) = false /\ is_str np_nan = false) /\
  (forall l',
     length l' = length l -> nth_error l' 0 = nth_error l 0 ->
     is_Some (fst (sample fn l eyes)) -> is_Some (fst (sample fn l' eyes))).
Proof.
  split.
  - intros s i get is_pupil tok Hs Hin Htok Hmiss.
    split; [|split; reflexivity].
    apply event_Some in Hs as [_ Hinit]. simpl in Hinit.
    destruct (sample_init_layout _ _ _ _ _ _ _ Hinit Hin) as (tok' & Htok' & ->).
    assert (tok' = tok) by congruence. subst tok'. f_equal.
    destruct is_pupil.
    + now apply sample_pupil_missing.
    + apply sample_coord_missing. unfold is_missing in Hmiss.
      now rewrite orb_false_r in Hmiss.
  - intros l' Hlen Hhd H. apply sample_accepted_iff in H as (Hm & Hn & Hneed).
    apply sample_accepted_iff. repeat split.
    + rewrite <- Hm. now apply sample_match_head.
    + rewrite <- Hn. now apply assert_numeric_head.
    + lia.
Qed.

Lemma sample_missing_is_nan_witness :
  (Sample.lpupil_size
     {| Sample.t := PInt 661781;
        Sample.lx := Some np_nan; Sample.ly := Some np_nan;
        Sample.lpupil_size := Some np_nan;
        Sample.rx := Some np_nan; Sample.ry := Some np_nan;
        Sample.rpupil_size := Some np_nan |} = Some np_nan /\
   py_eq np_nan (PInt 0) = false /\ is_str np_nan = false) /\
  is_Some (fst (sample None blink_sample_line "left")).
Proof.
  split.
  - apply (proj1 (sample_missing_is_nan None "left" blink_sample_line)
             _ 3%nat Sample.lpupil_size true (PFloat (S754_zero false))).
    + vm_compute. reflexivity.
    + vm_compute. auto.
    + reflexivity.
    + reflexivity.
  - apply (proj2 (sample_missing_is_nan None "left"
                    [PInt 661781; dec 1682 (-1); dec 4065 (-1); dec 21410 (-1); PStr "..."])
             blink_sample_line).
    + reflexivity.
    + reflexivity.
    + vm_compute. eauto.
Defined.

(** ** C8: durations and saccade size *)

(** C8, as stated, fails for [Blink]: its duration is the fifth token of the
    line, as the instrument reports it, and not the difference of the two
    times.  On the example line of the docstring the times differ by 89 and
    the duration is 90. *)
Lemma blink_duration_is_reported :
  exists b,
    fst (blink None eblink_line) = Some b /\
    Blink.duration b = PInt 90 /\
    py_sub (Blink.et b) (Blink.st b) = Ok (PInt 89).
Proof.
  exists (Blink.Build (PStr "R") (PInt 5294685) (PInt 5294774) (PInt 90)).
  split; [|split]; reflexivity.
Qed.

Lemma fixation_init_fields fn l f :
  Fixation.init fn l = Ok f ->
  nth_error l 2 = Some (Fixation.st f) /\ nth_error l 3 = Some (Fixation.et f) /\
  py_sub (Fixation.et f) (Fixation.st f) = Ok (Fixation.duration f).
Proof.
  unfold Fixation.init. intros H. bind_inv H. inversion H; subst; clear H. simpl.
  repeat match goal with E : py_index _ _ = Ok _ |- _ => apply py_index_Some in E end.
  auto.
Qed.

Lemma saccade_init_fields fn l s :
  Saccade.init fn l = Ok s ->
  nth_error l 2 = Some (Saccade.st s) /\ nth_error l 3 = Some (Saccade.et s) /\
  py_sub (Saccade.et s) (Saccade.st s) = Ok (Saccade.duration s) /\
  Saccade.distance (Saccade.sx s) (Saccade.sy s) (Saccade.ex s) (Saccade.ey s)
  = Ok (Saccade.size s) /\
  (let o := if (length l =? 11)%nat then 5%nat else 9%nat in
   nth_error l o = Some (Saccade.sx s) /\ nth_error l (o + 1) = Some (Saccade.sy s) /\
   nth_error l (o + 2) = Some (Saccade.ex s) /\ nth_error l (o + 3) = Some (Saccade.ey s)).
Proof.
  unfold Saccade.init. intros H. bind_inv H.
  destruct a as [[[sx sy] ex] ey].
  bind_inv H. inversion H; subst; clear H. simpl.
  repeat match goal with E : py_index _ _ = Ok _ |- _ => apply py_index_Some in E end.
  repeat split; try assumption.
  all: destruct (length l =? 11)%nat; bind_inv E; inversion E; subst;
    repeat match goal with E : py_index _ _ = Ok _ |- _ => apply py_index_Some in E end;
    assumption.
Qed.

Lemma blink_init_fields fn l b :
  Blink.init fn l = Ok b ->
  nth_error l 2 = Some (Blink.st b) /\ nth_error l 3 = Some (Blink.et b) /\
  nth_error l 4 = Some (Blink.duration b).
Proof.
  unfold Blink.init. intros H. bind_inv H. inversion H; subst; clear H. simpl.
  repeat match goal with E : py_index _ _ = Ok _ |- _ => apply py_index_Some in E end.
  auto.
Qed.

(** The size of a saccade whose coordinates are integers: the square root,
    in floating point, of the integer [(sx - ex)^2 + (sy - ey)^2]. *)
Lemma distance_int (sx sy ex ey : Z) :
  (sx - ex) * (sx - ex) + (sy - ey) * (sy - ey) < 2 ^ 64 ->
  Saccade.distance (PInt sx) (PInt sy) (PInt ex) (PInt ey)
  = Ok (PFloat (F64.sqrt (F64.of_Z ((sx - ex) * (sx - ex) + (sy - ey) * (sy - ey))))).
Proof.
  intros H. unfold Saccade.distance. simpl res_bind. unfold np_sqrt.
  pose proof (Z.square_nonneg (sx - ex)) as Hx.
  pose proof (Z.square_nonneg (sy - ey)) as Hy.
  replace (- 2 ^ 63 <=? _) with true by (symmetry; apply Z.leb_le; lia).
  replace (_ <? 2 ^ 64) with true by (symmetry; now apply Z.ltb_lt).
  reflexivity.
Qed.

(** C8 (amended): for every decoded Fixation and every decoded Saccade the
    duration is the end time minus the start time, both read from the line
    (for integer times, exactly the integer difference), and the size of a
    decoded Saccade is [np.sqrt((sx - ex)**2 + (sy - ey)**2)] of its decoded
    coordinates; the duration of a decoded Blink is the fifth token of the
    line, whatever the two times are. *)
Theorem event_durations_and_size fn (l : list pyval) :
  (forall f, fst (fixation fn l) = Some f ->
     nth_error l 2 = Some (Fixation.st f) /\ nth_error l 3 = Some (Fixation.et f) /\
     py_sub (Fixation.et f) (Fixation.st f) = Ok (Fixation.duration f) /\
     (forall a b, Fixation.et f = PInt a -> Fixation.st f = PInt b ->
                  Fixation.duration f = PInt (a - b))) /\
  (forall s, fst (saccade fn l) = Some s ->
     nth_error l 2 = Some (Saccade.st s) /\ nth_error l 3 = Some (Saccade.et s) /\
     py_sub (Saccade.et s) (Saccade.st s) = Ok (Saccade.duration s) /\
     (forall a b, Saccade.et s = PInt a -> Saccade.st s = PInt b ->
                  Saccade.duration s = PInt (a - b)) /\
     Saccade.distance (Saccade.sx s) (Saccade.sy s) (Saccade.ex s) (Saccade.ey s)
     = Ok (Saccade.size s)) /\
  (forall b, fst (blink fn l) = Some b ->
     nth_error l 2 = Some (Blink.st b) /\ nth_error l 3 = Some (Blink.et b) /\
     nth_error l 4 = Some (Blink.duration b)).
Proof.
  split; [|split].
  - intros f H. apply event_Some in H as [_ H]. simpl in H.
    apply fixation_init_fields in H as (H2 & H3 & Hd).
    repeat split; try assumption.
    intros a b Ha Hb. rewrite Ha, Hb in Hd. simpl in Hd. congruence.
  - intros s H. apply event_Some in H as [_ H]. simpl in H.
    apply saccade_init_fields in H as (H2 & H3 & Hd & Hs & _).
    repeat split; try assumption.
    intros a b Ha Hb. rewrite Ha, Hb in Hd. simpl in Hd. congruence.
  - intros b H. apply event_Some in H as [_ H]. simpl in H.
    now apply blink_init_fields in H.
Qed.

Lemma event_durations_and_size_witness :
  fst (saccade None esacc_line) = Some esacc_inst /\
  nth_error esacc_line 2 = Some (Saccade.st esacc_inst) /\
  nth_error esacc_line 3 = Some (Saccade.et esacc_inst) /\
  py_sub (Saccade.et esacc_inst) (Saccade.st esacc_inst)
  = Ok (Saccade.duration esacc_inst) /\
  (forall a b, Saccade.et esacc_inst = PInt a -> Saccade.st esacc_inst = PInt b ->
               Saccade.duration esacc_inst = PInt (a - b)) /\
  Saccade.distance (Saccade.sx esacc_inst) (Saccade.sy esacc_inst)
    (Saccade.ex esacc_inst) (Saccade.ey esacc_inst)
  = Ok (Saccade.size esacc_inst).
Proof.
  assert (H : fst (saccade None esacc_line) = Some esacc_inst)
    by (vm_compute; reflexivity).
  split; [exact H|].
  exact (proj1 (proj2 (event_durations_and_size None esacc_line)) esacc_inst H).
Defined.
(** ** C4: the tokenizer *)

(** C4, as stated, fails: [shlex.split] raises [ValueError] on a line with an
    unterminated quotation or a trailing backslash, and [split] calls it
    outside its [try] blocks. *)
Lemma split_raises_on_open_quote :
  split "MSG 7059 var note 'left" = Raise ValueError /\
  split "MSG 7059 var dir C:\" = Raise ValueError.
Proof. vm_compute. split; reflexivity. Qed.

(** The lexer raises exactly when the input ends inside a quotation or
    after a backslash. *)
Lemma read_end_state (input : string) :
  forall st quoted token,
    match end_state st input with
    | Shlex.StQuote _ | Shlex.StEscape _ =>
        Shlex.read st quoted token input = Raise ValueError
    | _ => exists words, Shlex.read st quoted token input = Ok words
    end.
Proof.
  assert (Hemit : forall rest token,
    (forall st quoted token,
       match end_state st rest with
       | Shlex.StQuote _ | Shlex.StEscape _ =>
           Shlex.read st quoted token rest = Raise ValueError
       | _ => exists words, Shlex.read st quoted token rest = Ok words
       end) ->
    match end_state Shlex.StWhite rest with
    | Shlex.StQuote _ | Shlex.StEscape _ =>
        res_map (cons token) (Shlex.read Shlex.StWhite false EmptyString rest)
        = Raise ValueError
    | _ => exists words,
        res_map (cons token) (Shlex.read Shlex.StWhite false EmptyString rest)
        = Ok words
    end).
  { intros rest token IH. specialize (IH Shlex.StWhite false EmptyString).
    destruct (end_state Shlex.StWhite rest);
      [ destruct IH as [ws ->]; cbn; eauto
      | destruct IH as [ws ->]; cbn; eauto
      | rewrite IH; reflexivity
      | rewrite IH; reflexivity ]. }
  induction input as [|c rest IH]; intros st quoted token.
  - destruct st; cbn; eauto.
  - destruct st as [| |q|esc]; cbn [Shlex.read end_state].
    + destruct (chr_in c Shlex.whitespace).
      * destruct (Shlex.nonempty token || quoted); [now apply Hemit | apply IH].
      * destruct (chr_in c Shlex.escape); [apply IH|].
        destruct (chr_in c Shlex.quotes); apply IH.
    + destruct (chr_in c Shlex.whitespace).
      * destruct (Shlex.nonempty token || quoted); [now apply Hemit | apply IH].
      * destruct (chr_in c Shlex.quotes), (chr_in c Shlex.escape); apply IH.
    + destruct (Ascii.eqb c q); [apply IH|].
      destruct (chr_in c Shlex.escape && chr_in q Shlex.escapedquotes); apply IH.
    + apply IH.
Qed.

Lemma split_raises_iff (line : string) :
  split line = Raise ValueError <-> unterminated line = true.
Proof.
  unfold split, Shlex.split, unterminated.
  pose proof (read_end_state line Shlex.StWhite false EmptyString) as H.
  destruct (end_state Shlex.StWhite line);
    [ destruct H as [ws ->]; cbn; split; discriminate
    | destruct H as [ws ->]; cbn; split; discriminate
    | rewrite H; cbn; split; reflexivity
    | rewrite H; cbn; split; reflexivity ].
Qed.

Lemma end_state_unquoted (input : string) :
  forall st,
    st = Shlex.StWhite \/ st = Shlex.StWord ->
    unquoted input = true ->
    end_state st input = Shlex.StWhite \/ end_state st input = Shlex.StWord.
Proof.
  induction input as [|c rest IH]; intros st Hst Hq; [exact Hst|].
  cbn [unquoted] in Hq. apply andb_true_iff in Hq as [Hc Hrest].
  apply andb_true_iff in Hc as [Hcq Hce].
  apply negb_true_iff in Hcq, Hce.
  destruct Hst as [-> | ->]; cbn [end_state]; rewrite Hcq, Hce;
    destruct (chr_in c Shlex.whitespace); apply IH; auto.
Qed.

(** In particular a line without quotation marks and backslashes is
    tokenized. *)
Lemma unquoted_terminated (line : string) :
  unquoted line = true -> unterminated line = false.
Proof.
  intros H. unfold unterminated.
  destruct (end_state_unquoted line Shlex.StWhite (or_introl eq_refl) H) as [-> | ->];
    reflexivity.
Qed.

Lemma read_blank (input : string) :
  blank input = true ->
  Shlex.read Shlex.StWhite false EmptyString input = Ok [].
Proof.
  induction input as [|c rest IH]; intros Hb; [reflexivity|].
  cbn [blank] in Hb. apply andb_true_iff in Hb as [Hc Hrest].
  cbn [Shlex.read]. rewrite Hc. cbn [Shlex.nonempty orb]. auto.
Qed.

Lemma coerce_coerced (word : string) : coerced word (coerce word).
Proof.
  unfold coerced, coerce.
  destruct (py_int word); [reflexivity|]. destruct (py_float word); reflexivity.
Qed.

(** C4 (amended): on every raw line that does not end inside a quotation or
    right after a backslash (so on every line without quotation marks and
    backslashes) the tokenizer returns a sequence of tokens, one per word of
    the line, each word coerced to an integer if it parses as one, else to a
    real if it parses as one, else kept as text; on a line of whitespace only
    (the empty line included) the sequence is empty. *)
Theorem split_terminated (line : string) :
  unterminated line = false ->
  exists words tokens,
    Shlex.split line = Ok words /\
    split line = Ok tokens /\
    Forall2 coerced words tokens /\
    (blank line = true -> tokens = []).
Proof.
  intros Hq. unfold unterminated in Hq.
  pose proof (read_end_state line Shlex.StWhite false EmptyString) as Hw.
  assert (exists words, Shlex.read Shlex.StWhite false EmptyString line = Ok words)
    as [words Hw'].
  { destruct (end_state Shlex.StWhite line); try discriminate; exact Hw. }
  clear Hw. rename Hw' into Hw.
  exists words, (map coerce words). unfold split, Shlex.split. rewrite Hw.
  repeat split.
  - clear Hw. induction words; constructor; auto using coerce_coerced.
  - intros Hb. apply read_blank in Hb. rewrite Hb in Hw. inversion Hw. reflexivity.
Qed.

Lemma split_terminated_witness :
  exists words tokens,
    Shlex.split "MSG 101 var note 'a b'" = Ok words /\
    split "MSG 101 var note 'a b'" = Ok tokens /\
    Forall2 coerced words tokens /\
    (blank "MSG 101 var note 'a b'" = true -> tokens = []).
Proof. apply (split_terminated "MSG 101 var note 'a b'"). reflexivity. Defined.

(** ** The trial loop *)

Lemma is_msg_inv (n : nat) (kw : string) (l : list pyval) :
  is_msg n kw l = true ->
  length l = n /\ exists l1 rest, l = PStr "MSG" :: l1 :: PStr kw :: rest.
Proof.
  unfold is_msg. intros H. apply andb_true_iff in H as [Hlen H].
  apply Nat.eqb_eq in Hlen. split; [exact Hlen|].
  destruct l as [|l0 [|l1 [|l2 rest]]]; try discriminate.
  apply andb_true_iff in H as [H0 H2].
  apply str_is_eq in H0, H2. subst. eauto.
Qed.

Lemma is_msg_length (n m : nat) (kw kw' : string) (l : list pyval) :
  is_msg n kw l = true -> n <> m -> is_msg m kw' l = false.
Proof.
  intros H Hne. apply is_msg_inv in H as [Hlen _].
  unfold is_msg. replace (length l =? m)%nat with false; [reflexivity|].
  symmetry. apply Nat.eqb_neq. lia.
Qed.

Lemma is_msg_keyword (n m : nat) (kw kw' : string) (l : list pyval) :
  is_msg n kw l = true -> kw <> kw' -> is_msg m kw' l = false.
Proof.
  intros H Hne. apply is_msg_inv in H as [_ (l1 & rest & ->)].
  unfold is_msg. simpl.
  replace (String.eqb kw kw') with false; [now rewrite andb_false_r|].
  symmetry. now apply String.eqb_neq.
Qed.

Lemma to_sample_msg (n : nat) (kw : string) (l : list pyval) :
  is_msg n kw l = true -> to_sample l = None.
Proof.
  intros H. apply is_msg_inv in H as [_ (l1 & rest & ->)].
  unfold to_sample. destruct rest; [reflexivity|].
  simpl. now rewrite orb_true_r.
Qed.

(** The loop of [parse_trial], one round at a time. *)
Lemma parse_trial_loop_end (self : parser) (line : string) (l : list pyval)
  (f : list string) :
  split line = Ok l -> is_msg 3 "end_trial" l = true ->
  parse_trial_loop self (line :: f) = Ok (set_trialid self None, f).
Proof.
  intros Hs He. simpl. rewrite Hs. simpl. unfold is_end_trial. rewrite He.
  reflexivity.
Qed.

Lemma parse_trial_loop_step (self : parser) (line : string) (l : list pyval)
  (f : list string) :
  split line = Ok l -> is_msg 3 "end_trial" l = false ->
  parse_trial_loop self (line :: f)
  = try! self := trial_step self l in parse_trial_loop self f.
Proof.
  intros Hs He. simpl. rewrite Hs. simpl. unfold is_end_trial. rewrite He.
  unfold trial_step.
  destruct (parse_variable self l) as [self1|e]; [|reflexivity]. simpl.
  destruct (parse_phase self1 l) as [self2|e]; reflexivity.
Qed.

(** A line that is none of the markers of the loop changes nothing while no
    phase is open. *)
Lemma trial_step_start_trial (self : parser) (l : list pyval) :
  is_msg 4 "start_trial" l = true -> trial_step self l = Ok self.
Proof.
  intros H. unfold trial_step, parse_variable, parse_phase, parse_line.
  rewrite (is_msg_length _ 5 _ "var" _ H) by lia. simpl.
  rewrite (is_msg_keyword _ 4 _ "start_phase" _ H) by discriminate.
  rewrite (is_msg_keyword _ 4 _ "end_phase" _ H) by discriminate.
  rewrite (to_sample_msg _ _ _ H).
  destruct (current_phase self); reflexivity.
Qed.

(** The loop of [parse_trial] returns a part of the iterator it was given,
    and leaves the table of the file alone. *)
Lemma parse_variable_filedm self l self' :
  parse_variable self l = Ok self' -> filedm self' = filedm self.
Proof.
  unfold parse_variable. destruct (is_msg 5 "var" l).
  - intros H. bind_inv H. inversion H. reflexivity.
  - intros H. inversion H. reflexivity.
Qed.

Lemma parse_phase_filedm self l self' :
  parse_phase self l = Ok self' -> filedm self' = filedm self.
Proof.
  unfold parse_phase. destruct (is_msg 4 "start_phase" l).
  { intros H. bind_inv H. inversion H. reflexivity. }
  destruct (is_msg 4 "end_phase" l).
  { intros H. bind_inv H. destruct (current_phase self); [|discriminate].
    bind_inv H. inversion H. reflexivity. }
  destruct (current_phase self); [|intros H; inversion H; reflexivity].
  destruct (to_sample l); intros H; inversion H; reflexivity.
Qed.

Lemma trial_step_filedm self l self' :
  trial_step self l = Ok self' -> filedm self' = filedm self.
Proof.
  unfold trial_step, parse_line. intros H. bind_inv H. inversion H; subst.
  apply parse_phase_filedm in E0. apply parse_variable_filedm in E. congruence.
Qed.

Lemma parse_trial_loop_spec (f : list string) :
  forall self self' rest,
    parse_trial_loop self f = Ok (self', rest) ->
    (length rest <= length f)%nat /\ filedm self' = filedm self /\
    (forallb (fun line => negb (marker_line 3 "end_trial" line)) f = true ->
     rest = []).
Proof.
  induction f as [|line f IH]; intros self self' rest H.
  - inversion H. auto.
  - simpl in H. unfold marker_line. simpl forallb.
    destruct (split line) as [l|e] eqn:Hs; [|discriminate]. simpl in H.
    unfold is_end_trial in H.
    destruct (is_msg 3 "end_trial" l) eqn:He.
    + inversion H; subst. simpl. repeat split; [lia|discriminate].
    + destruct (parse_variable self l) as [self1|e] eqn:Hv; [|discriminate].
      simpl in H.
      destruct (parse_phase self1 l) as [self2|e] eqn:Hp; [|discriminate].
      simpl in H. apply IH in H as (Hlen & Hdm & Hrest).
      apply parse_variable_filedm in Hv. apply parse_phase_filedm in Hp.
      unfold parse_line in Hdm. simpl. repeat split; [lia|congruence|exact Hrest].
Qed.

(** The bound on the rounds of [parse_file_loop] is never reached: any bound
    that is at least the number of lines gives the same result. *)
Lemma parse_file_loop_fuel (fuel1 : nat) :
  forall fuel2 self ntrial f,
    (length f <= fuel1)%nat -> (length f <= fuel2)%nat ->
    parse_file_loop fuel1 self ntrial f = parse_file_loop fuel2 self ntrial f.
Proof.
  induction fuel1 as [|fuel1 IH]; intros fuel2 self ntrial f H1 H2.
  - destruct f; [|simpl in H1; lia]. destruct fuel2; reflexivity.
  - destruct f as [|line f]; [destruct fuel2; reflexivity|].
    destruct fuel2 as [|fuel2]; [simpl in H2; lia|].
    simpl in *. destruct (split line) as [l|e]; [|reflexivity]. simpl.
    destruct (is_start_trial self l) as [[] self1].
    + unfold parse_trial.
      destruct (parse_trial_loop _ f) as [[self2 rest]|e] eqn:Hl; [|reflexivity].
      simpl. apply parse_trial_loop_spec in Hl as (Hlen & _ & _).
      apply IH; lia.
    + apply IH; lia.
Qed.

(** ** C10: a start_trial marker inside a trial *)

Lemma parse_trial_loop_nested (pre : list string) :
  forall self nested post,
    marker_line 4 "start_trial" nested = true ->
    forallb (fun line => negb (marker_line 3 "end_trial" line)) pre = true ->
    parse_trial_loop self (pre ++ nested :: post) = parse_trial_loop self (pre ++ post).
Proof.
  induction pre as [|line pre IH]; intros self nested post Hn Hpre.
  - simpl app. unfold marker_line in Hn.
    destruct (split nested) as [l|e] eqn:Hs; [|discriminate].
    rewrite (parse_trial_loop_step _ _ l _ Hs)
      by (apply (is_msg_length _ _ _ _ _ Hn); lia).
    rewrite (trial_step_start_trial _ _ Hn). reflexivity.
  - simpl in Hpre. apply andb_true_iff in Hpre as [Hline Hpre].
    apply negb_true_iff in Hline. unfold marker_line in Hline.
    simpl. destruct (split line) as [l|e]; [|reflexivity]. simpl.
    unfold is_end_trial. rewrite Hline.
    destruct (parse_variable self l) as [self1|e]; [|reflexivity]. simpl.
    destruct (parse_phase self1 l) as [self2|e]; [|reflexivity]. simpl.
    now apply IH.
Qed.

(** C10: while a trial is open, a line that matches the start_trial marker
    opens no trial: the loop of [parse_trial] treats it as a line without
    effect, so parsing the trial with the line gives the same parser state,
    the same row and the same rest of the file as parsing it without; and a
    file whose first trial contains the line yields the same rows and the
    same trial count as the file without it. *)
Theorem nested_start_trial_ignored (self : parser) (pre post : list string)
  (nested : string) :
  marker_line 4 "start_trial" nested = true ->
  forallb (fun line => negb (marker_line 3 "end_trial" line)) pre = true ->
  parse_trial self (pre ++ nested :: post) = parse_trial self (pre ++ post) /\
  (forall file start,
     marker_line 4 "start_trial" start = true ->
     parse_file self file (start :: pre ++ nested :: post)
     = parse_file self file (start :: pre ++ post)).
Proof.
  intros Hn Hpre. split.
  - unfold parse_trial. now rewrite parse_trial_loop_nested.
  - intros file start Hstart. unfold parse_file.
    rewrite (parse_file_loop_fuel _ (S (length (start :: pre ++ post))) _ _
               (start :: pre ++ nested :: post))
      by (simpl; rewrite !length_app; simpl; lia).
    rewrite (parse_file_loop_fuel (length (start :: pre ++ post))
               (S (length (start :: pre ++ post))) _ _ (start :: pre ++ post))
      by (simpl; lia).
    cbn [parse_file_loop].
    unfold marker_line in Hstart.
    destruct (split start) as [l|e]; [|discriminate]. simpl res_bind.
    unfold is_start_trial. rewrite Hstart. unfold parse_trial.
    rewrite parse_trial_loop_nested by assumption.
    destruct (parse_trial_loop _ (pre ++ post)) as [[self2 rest]|e];
      reflexivity.
Qed.

Lemma nested_start_trial_ignored_witness :
  parse_trial new_parser
    (["MSG 101 var cond A"] ++ "MSG 102 start_trial 2"
       :: ["MSG 103 var rt 805"; "MSG 104 end_trial"])
  = parse_trial new_parser
      (["MSG 101 var cond A"] ++ ["MSG 103 var rt 805"; "MSG 104 end_trial"]) /\
  (forall file start,
     marker_line 4 "start_trial" start = true ->
     parse_file new_parser file
       (start :: ["MSG 101 var cond A"] ++ "MSG 102 start_trial 2"
          :: ["MSG 103 var rt 805"; "MSG 104 end_trial"])
     = parse_file new_parser file
         (start :: ["MSG 101 var cond A"]
            ++ ["MSG 103 var rt 805"; "MSG 104 end_trial"])).
Proof.
  apply (nested_start_trial_ignored new_parser ["MSG 101 var cond A"]
           ["MSG 103 var rt 805"; "MSG 104 end_trial"] "MSG 102 start_trial 2");
    vm_compute; reflexivity.
Defined.

(** ** C6: end_trial while a phase is open *)

(** C6, as stated, fails: the end_trial marker closes the trial although the
    phase [probe] is open; nothing is raised, and the row has no trace of
    the phase. *)
Lemma end_trial_in_open_phase_is_silent :
  exists self,
    parse_file new_parser "data/s01.asc"
      [ "MSG 100 start_trial 1"; "MSG 102 start_phase probe";
        "4815155 168.2 406.5 2141.0 ..."; "MSG 104 end_trial" ]
    = Ok (self,
          [ <["trialid" := Scalar (PInt 1)]>
              (<["path" := Scalar (PStr "data/s01.asc")]> ∅) ],
          1%nat).
Proof. eexists. vm_compute. reflexivity. Qed.

(** C6 (amended): an end_trial marker met while a phase is open closes the
    trial like any other end_trial marker: nothing is raised, the row of
    the trial is returned as it stands, without columns for the open phase,
    and the next start_trial marker resets the open phase, so the traces
    accumulated in it reach no row. *)
Theorem end_trial_closes_open_phase (self : parser) (phase : pyval)
  (line : string) (l : list pyval) (f : list string) :
  current_phase self = Some phase ->
  split line = Ok l ->
  is_msg 3 "end_trial" l = true ->
  exists self',
    parse_trial_loop self (line :: f) = Ok (self', f) /\
    trialdm self' = trialdm self /\
    current_phase self' = Some phase /\
    forall l', is_msg 4 "start_trial" l' = true ->
               current_phase (snd (is_start_trial self' l')) = None.
Proof.
  intros Hp Hs Hl. exists (set_trialid self None).
  rewrite (parse_trial_loop_end _ _ _ _ Hs Hl).
  repeat split; try assumption.
  intros l' Hl'. unfold is_start_trial. rewrite Hl'. reflexivity.
Qed.

Lemma end_trial_closes_open_phase_witness :
  exists self',
    parse_trial_loop in_probe ["MSG 104 end_trial"; "MSG 200 start_trial 2"]
    = Ok (self', ["MSG 200 start_trial 2"]) /\
    trialdm self' = trialdm in_probe /\
    current_phase self' = Some (PStr "probe") /\
    forall l', is_msg 4 "start_trial" l' = true ->
               current_phase (snd (is_start_trial self' l')) = None.
Proof.
  apply (end_trial_closes_open_phase in_probe (PStr "probe") "MSG 104 end_trial"
           [PStr "MSG"; PInt 104; PStr "end_trial"] ["MSG 200 start_trial 2"]).
  - reflexivity.
  - vm_compute. reflexivity.
  - reflexivity.
Defined.

(** ** C7: opening a phase *)

(** A start_phase marker met while a phase is open is refused: the first
    assertion of [parse_phase] fails. *)
Lemma start_phase_in_open_phase_raises (self : parser) (l : list pyval)
  (phase : pyval) :
  current_phase self = Some phase ->
  is_msg 4 "start_phase" l = true ->
  trial_step self l = Raise AssertionError.
Proof.
  intros Hp Hl. unfold trial_step, parse_variable, parse_phase.
  rewrite (is_msg_length _ 5 _ "var" _ Hl) by lia.
  cbn [res_bind]. rewrite Hl, Hp. reflexivity.
Qed.

(** The second assertion of [parse_phase] never fails: it looks up
    [self.current_phase], which the first assertion has just found to be
    [None], and not the name of the phase to open. *)
Lemma start_phase_name_not_checked (self : parser) (l : list pyval) :
  current_phase self = None ->
  is_msg 4 "start_phase" l = true ->
  trial_step self l
  = Ok (set_traces (set_current_phase self (nth_error l 3)) [] [] []).
Proof.
  intros Hp Hl. unfold trial_step, parse_variable, parse_phase, parse_line.
  rewrite (is_msg_length _ 5 _ "var" _ Hl) by lia.
  cbn [res_bind]. rewrite Hl, Hp. reflexivity.
Qed.

(** C7: the code does not keep the second requirement.  A trial that opens
    the phase [probe] a second time is parsed without any error, and the
    traces of the second, empty phase replace those of the first. *)
Theorem reused_phase_name_overwrites :
  exists self,
    parse_file new_parser "data/s01.asc" reuse_lines
    = Ok (self,
          [ <["ytrace_probe" := Series []]>
              (<["xtrace_probe" := Series []]>
                 (<["ptrace_probe" := Series []]>
                    (<["trialid" := Scalar (PInt 1)]>
                       (<["path" := Scalar (PStr "data/s01.asc")]> ∅)))) ],
          1%nat).
Proof. eexists. vm_compute. reflexivity. Qed.

(** ** C9: the traces of a phase *)

Lemma parse_variable_phase self l self' :
  parse_variable self l = Ok self' ->
  current_phase self' = current_phase self /\ ptrace self' = ptrace self /\
  xtrace self' = xtrace self /\ ytrace self' = ytrace self.
Proof.
  unfold parse_variable. destruct (is_msg 5 "var" l).
  - intros H. bind_inv H. inversion H. auto.
  - intros H. inversion H. auto.
Qed.

(** Inside an open phase, a line that is no marker appends the sample it
    holds, if it holds one, to the three traces. *)
Lemma trial_step_in_phase self l self' phase :
  current_phase self = Some phase ->
  is_marker l = false ->
  trial_step self l = Ok self' ->
  current_phase self' = Some phase /\
  ptrace self' = ptrace self ++ map sample_pupil_size (omap to_sample [l]) /\
  xtrace self' = xtrace self ++ map sample_x (omap to_sample [l]) /\
  ytrace self' = ytrace self ++ map sample_y (omap to_sample [l]).
Proof.
  intros Hp Hm H. unfold is_marker in Hm.
  apply orb_false_iff in Hm as [Hm He]. apply orb_false_iff in Hm as [_ Hs].
  unfold trial_step, parse_line in H. bind_inv H. inversion H; subst; clear H.
  apply parse_variable_phase in E as (Hp1 & Hpt & Hxt & Hyt).
  unfold parse_phase in E0. rewrite Hs, He, Hp1, Hp in E0.
  cbn [omap list_omap]. destruct (to_sample l) as [s|]; inversion E0; subst; clear E0;
    cbn; rewrite ?app_nil_r; rewrite <- ?Hpt, <- ?Hxt, <- ?Hyt;
    repeat split; congruence.
Qed.

Lemma trial_steps_in_phase (ls : list (list pyval)) :
  forall self self' phase,
    current_phase self = Some phase ->
    forallb (fun l => negb (is_marker l)) ls = true ->
    trial_steps self ls = Ok self' ->
    current_phase self' = Some phase /\
    ptrace self' = ptrace self ++ map sample_pupil_size (omap to_sample ls) /\
    xtrace self' = xtrace self ++ map sample_x (omap to_sample ls) /\
    ytrace self' = ytrace self ++ map sample_y (omap to_sample ls).
Proof.
  induction ls as [|l ls IH]; intros self self' phase Hp Hm H.
  - inversion H; subst. cbn. rewrite !app_nil_r. auto.
  - cbn [forallb] in Hm. apply andb_true_iff in Hm as [Hl Hm].
    apply negb_true_iff in Hl.
    cbn [trial_steps] in H. bind_inv H.
    destruct (trial_step_in_phase _ _ _ _ Hp Hl E) as (Hp1 & Hpt & Hxt & Hyt).
    destruct (IH _ _ _ Hp1 Hm H) as (Hp2 & Hpt2 & Hxt2 & Hyt2).
    rewrite Hpt2, Hxt2, Hyt2, Hpt, Hxt, Hyt.
    replace (omap to_sample (l :: ls))
      with (omap to_sample [l] ++ omap to_sample ls)
      by (cbn; destruct (to_sample l); reflexivity).
    rewrite !map_app, !app_assoc. auto.
Qed.

(** The loop of [parse_trial] over lines that are no end_trial marker is
    the iteration of [trial_step] over their tokens. *)
Lemma parse_trial_loop_steps (body : list string) :
  forall self ls f,
    split_all body = Ok ls ->
    forallb (fun l => negb (is_msg 3 "end_trial" l)) ls = true ->
    parse_trial_loop self (body ++ f)
    = try! self' := trial_steps self ls in parse_trial_loop self' f.
Proof.
  induction body as [|line body IH]; intros self ls f Hs Hm.
  - inversion Hs; subst. reflexivity.
  - cbn [split_all] in Hs. bind_inv Hs. inversion Hs; subst; clear Hs.
    cbn [forallb] in Hm. apply andb_true_iff in Hm as [Hl Hm].
    apply negb_true_iff in Hl.
    rewrite <- app_comm_cons. rewrite (parse_trial_loop_step _ _ _ _ E Hl).
    cbn [trial_steps]. destruct (trial_step self a) as [self1|e]; [|reflexivity].
    cbn [res_bind]. now apply IH.
Qed.

Lemma trial_step_start_phase self l self' name :
  is_msg 4 "start_phase" l = true ->
  nth_error l 3 = Some name ->
  trial_step self l = Ok self' ->
  current_phase self' = Some name /\ trialdm self' = trialdm self /\
  ptrace self' = [] /\ xtrace self' = [] /\ ytrace self' = [].
Proof.
  intros Hl Hn H. unfold trial_step, parse_variable, parse_phase, parse_line in H.
  rewrite (is_msg_length _ 5 _ "var" _ Hl) in H by lia.
  cbn [res_bind] in H. rewrite Hl in H. bind_inv H. inversion H; subst.
  bind_inv E. inversion E; subst. cbn. repeat split; auto.
Qed.

Lemma trial_step_end_phase self l self' name :
  is_msg 4 "end_phase" l = true ->
  current_phase self = Some (PStr name) ->
  trial_step self l = Ok self' ->
  trialdm self'
  = <[("ytrace_" ++ name)%string := Series (ytrace self)]>
      (<[("xtrace_" ++ name)%string := Series (xtrace self)]>
         (<[("ptrace_" ++ name)%string := Series (ptrace self)]> (trialdm self))).
Proof.
  intros Hl Hp H. unfold trial_step, parse_variable, parse_phase, parse_line in H.
  rewrite (is_msg_length _ 5 _ "var" _ Hl) in H by lia.
  cbn [res_bind] in H.
  rewrite (is_msg_keyword _ 4 _ "start_phase" _ Hl) in H by discriminate.
  rewrite Hl, Hp in H. bind_inv H. inversion H; subst.
  bind_inv E. inversion E; subst. cbn in E2. inversion E2; subst. reflexivity.
Qed.

Lemma phase_traces_flushed (dm : row) (name : string) (p x y : list pyval) :
  phase_traces
    (<[("ytrace_" ++ name)%string := Series y]>
       (<[("xtrace_" ++ name)%string := Series x]>
          (<[("ptrace_" ++ name)%string := Series p]> dm))) name
  = Some (p, x, y).
Proof.
  unfold phase_traces.
  rewrite lookup_insert_ne by (cbn; discriminate).
  rewrite lookup_insert_ne by (cbn; discriminate).
  rewrite lookup_insert_eq.
  rewrite lookup_insert_ne by (cbn; discriminate).
  rewrite lookup_insert_eq.
  rewrite lookup_insert_eq. reflexivity.
Qed.

(** C9: when a phase is opened by a start_phase marker and closed by its
    end_phase marker, with no marker among the lines in between, the three
    trace columns flushed into the row each have as many entries as there
    are accepted Sample lines in between, and entry [i] of each trace is the
    value of the [i]-th accepted sample, in the order of the lines. *)
Theorem phase_traces_aligned (self self' : parser) (start stop : string)
  (body rest : list string) (lstart lstop : list pyval)
  (ls : list (list pyval)) (name : string) :
  split start = Ok lstart ->
  is_msg 4 "start_phase" lstart = true ->
  nth_error lstart 3 = Some (PStr name) ->
  split_all body = Ok ls ->
  forallb (fun l => negb (is_marker l)) ls = true ->
  split stop = Ok lstop ->
  is_msg 4 "end_phase" lstop = true ->
  parse_trial_loop self (start :: body ++ [stop]) = Ok (self', rest) ->
  exists p x y,
    phase_traces (trialdm self') name = Some (p, x, y) /\
    length p = length (omap to_sample ls) /\
    length x = length (omap to_sample ls) /\
    length y = length (omap to_sample ls) /\
    forall i s,
      omap to_sample ls !! i = Some s ->
      p !! i = Some (sample_pupil_size s) /\
      x !! i = Some (sample_x s) /\
      y !! i = Some (sample_y s).
Proof.
  intros Hstart Hls Hname Hbody Hplain Hstop Hle H.
  rewrite (parse_trial_loop_step _ _ _ _ Hstart) in H
    by (apply (is_msg_length _ _ _ _ _ Hls); lia).
  bind_inv H. rename a into self1.
  destruct (trial_step_start_phase _ _ _ _ Hls Hname E) as (Hp1 & _ & Hpt & Hxt & Hyt).
  assert (Hnoend : forallb (fun l => negb (is_msg 3 "end_trial" l)) ls = true).
  { clear -Hplain. induction ls as [|l ls IH]; [reflexivity|].
    cbn [forallb] in *. apply andb_true_iff in Hplain as [Hl Hrest].
    rewrite (IH Hrest), andb_true_r. unfold is_marker in Hl.
    rewrite !negb_orb in Hl. apply andb_true_iff in Hl as [Hl _].
    now apply andb_true_iff in Hl as [Hl _]. }
  rewrite (parse_trial_loop_steps _ _ _ _ Hbody Hnoend) in H.
  bind_inv H. rename a into self2.
  destruct (trial_steps_in_phase _ _ _ _ Hp1 Hplain E0) as (Hp2 & Hpt2 & Hxt2 & Hyt2).
  rewrite Hpt in Hpt2. rewrite Hxt in Hxt2. rewrite Hyt in Hyt2. cbn [app] in *.
  rewrite (parse_trial_loop_step _ _ _ _ Hstop) in H
    by (apply (is_msg_length _ _ _ _ _ Hle); lia).
  bind_inv H. rename a into self3. cbn [parse_trial_loop] in H.
  inversion H; subst self3 rest; clear H.
  rewrite (trial_step_end_phase _ _ _ _ Hle Hp2 E1).
  exists (ptrace self2), (xtrace self2), (ytrace self2).
  split; [apply phase_traces_flushed|].
  rewrite Hpt2, Hxt2, Hyt2, !length_map. repeat split; try reflexivity.
  all: rewrite list_lookup_fmap, H; reflexivity.
Qed.

Lemma phase_traces_aligned_witness :
  exists p x y,
    phase_traces
      (<["ytrace_probe" := Series [dec 4065 (-1); dec 4075 (-1)]]>
         (<["xtrace_probe" := Series [dec 1682 (-1); dec 1690 (-1)]]>
            (<["ptrace_probe" := Series [dec 21410 (-1); dec 21390 (-1)]]>
               (<["rt" := Scalar (PInt 805)]> ∅)))) "probe" = Some (p, x, y) /\
    length p = 2%nat /\ length x = 2%nat /\ length y = 2%nat.
Proof.
  destruct (phase_traces_aligned new_parser
    (Parser [] EmptyString
       (<["ytrace_probe" := Series [dec 4065 (-1); dec 4075 (-1)]]>
          (<["xtrace_probe" := Series [dec 1682 (-1); dec 1690 (-1)]]>
             (<["ptrace_probe" := Series [dec 21410 (-1); dec 21390 (-1)]]>
                (<["rt" := Scalar (PInt 805)]> ∅))))
       None None
       [dec 21410 (-1); dec 21390 (-1)] [dec 1682 (-1); dec 1690 (-1)]
       [dec 4065 (-1); dec 4075 (-1)])
    "MSG 102 start_phase probe" "MSG 103 end_phase probe" probe_body []
    [PStr "MSG"; PInt 102; PStr "start_phase"; PStr "probe"]
    [PStr "MSG"; PInt 103; PStr "end_phase"; PStr "probe"]
    [ [PInt 4815155; dec 1682 (-1); dec 4065 (-1); dec 21410 (-1); PStr "..."];
      [PStr "MSG"; PInt 4815156; PStr "var"; PStr "rt"; PInt 805];
      [PInt 4815157; dec 1684 (-1); dec 4061 (-1)];
      [PInt 4815158; PStr "."; PStr "."; PFloat (S754_zero false); PStr "..."];
      [PInt 4815159; dec 1690 (-1); dec 4075 (-1); dec 21390 (-1); PStr "..."] ]
    "probe") as (p & x & y & Ht & Hp & Hx & Hy & _);
    try (vm_compute; reflexivity).
  exists p, x, y. auto.
Defined.

(** ** C5: a trial that the file does not close *)










(** * Further properties of the code *)

(** ** The tokenizer *)

(** X1: the only exception [split] raises is [ValueError], and it raises it
    exactly on the lines that end inside a quotation or right after a
    backslash. *)
Theorem split_raises_exactly (line : string) :
  (forall e, split line = Raise e -> e = ValueError /\ unterminated line = true) /\
  (unterminated line = true -> split line = Raise ValueError).
Proof.
  split.
  - intros e H. unfold split, Shlex.split in H.
    pose proof (read_end_state line Shlex.StWhite false EmptyString) as Hr.
    unfold unterminated.
    destruct (end_state Shlex.StWhite line);
      [ destruct Hr as [ws Hr]; rewrite Hr in H; discriminate
      | destruct Hr as [ws Hr]; rewrite Hr in H; discriminate
      | rewrite Hr in H; inversion H; auto
      | rewrite Hr in H; inversion H; auto ].
  - apply split_raises_iff.
Qed.

Lemma read_trailing_newline (input : string) :
  forall st quoted token,
    end_state st input = Shlex.StWhite \/ end_state st input = Shlex.StWord ->
    Shlex.read st quoted token (input ++ String "010"%char EmptyString)
    = Shlex.read st quoted token input.
Proof.
  induction input as [|c rest IH]; intros st quoted token H.
  - cbn [end_state] in H.
    destruct H as [-> | ->]; destruct token, quoted; reflexivity.
  - revert H.
    change (String c rest ++ String "010"%char EmptyString)%string
      with (String c (rest ++ String "010"%char EmptyString)).
    cbn [Shlex.read end_state].
    destruct st as [| |q|esc].
    + destruct (chr_in c Shlex.whitespace).
      * destruct (Shlex.nonempty token || quoted); intros H;
          [rewrite IH by exact H; reflexivity | now apply IH].
      * destruct (chr_in c Shlex.escape); [intros H; now apply IH|].
        destruct (chr_in c Shlex.quotes); intros H; now apply IH.
    + destruct (chr_in c Shlex.whitespace).
      * destruct (Shlex.nonempty token || quoted); intros H;
          [rewrite IH by exact H; reflexivity | now apply IH].
      * destruct (chr_in c Shlex.quotes); [intros H; now apply IH|].
        destruct (chr_in c Shlex.escape); intros H; now apply IH.
    + destruct (Ascii.eqb c q); [intros H; now apply IH|].
      destruct (chr_in c Shlex.escape && chr_in q Shlex.escapedquotes);
        intros H; now apply IH.
    + intros H. now apply IH.
Qed.

(** X2: the line feed that ends a line read from a file does not change its
    tokens: a line that does not end inside a quotation or after a backslash
    is tokenized the same with and without it. *)
Theorem split_trailing_newline (line : string) :
  unterminated line = false ->
  split (line ++ String "010"%char EmptyString) = split line.
Proof.
  intros H. unfold split, Shlex.split. rewrite read_trailing_newline; [reflexivity|].
  unfold unterminated in H.
  destruct (end_state Shlex.StWhite line); try discriminate; auto.
Qed.

Lemma split_trailing_newline_witness :
  split ("MSG 100 start_trial 1" ++ String "010"%char EmptyString)
  = split "MSG 100 start_trial 1".
Proof. apply split_trailing_newline. reflexivity. Defined.

(** ** Violations of the phase protocol *)

Lemma trial_step_end_phase_mismatch (self : parser) (l : list pyval)
  (name : pyval) :
  is_msg 4 "end_phase" l = true ->
  nth_error l 3 = Some name ->
  match current_phase self with
  | Some phase => py_eq phase name = false
  | None => True
  end ->
  trial_step self l = Raise AssertionError.
Proof.
  intros Hl Hn Hp. unfold trial_step, parse_variable, parse_phase.
  rewrite (is_msg_length _ 5 _ "var" _ Hl) by lia. cbn [res_bind].
  rewrite (is_msg_keyword _ 4 _ "start_phase" _ Hl) by discriminate.
  rewrite Hl. apply py_index_Some in Hn. rewrite Hn. cbn [res_bind].
  destruct (current_phase self) as [phase|]; [rewrite Hp|]; reflexivity.
Qed.

(** X3: an end_phase marker that does not name the open phase, or that comes
    while no phase is open, raises [AssertionError] out of the loop of
    [parse_trial]. *)
Theorem end_phase_mismatch_raises (self : parser) (line : string)
  (l : list pyval) (f : list string) (name : pyval) :
  split line = Ok l ->
  is_msg 4 "end_phase" l = true ->
  nth_error l 3 = Some name ->
  match current_phase self with
  | Some phase => py_eq phase name = false
  | None => True
  end ->
  parse_trial_loop self (line :: f) = Raise AssertionError.
Proof.
  intros Hs Hl Hn Hp.
  rewrite (parse_trial_loop_step _ _ _ _ Hs)
    by (apply (is_msg_length _ _ _ _ _ Hl); lia).
  now rewrite (trial_step_end_phase_mismatch _ _ _ Hl Hn Hp).
Qed.

Lemma end_phase_mismatch_raises_witness :
  parse_trial_loop in_probe ["MSG 103 end_phase target"; "MSG 104 end_trial"]
  = Raise AssertionError.
Proof.
  apply (end_phase_mismatch_raises in_probe "MSG 103 end_phase target"
           [PStr "MSG"; PInt 103; PStr "end_phase"; PStr "target"] _
           (PStr "target")).
  - vm_compute. reflexivity.
  - reflexivity.
  - reflexivity.
  - reflexivity.
Defined.

(** X4: a start_phase marker met while a phase is open raises
    [AssertionError] out of the loop of [parse_trial]: phases do not nest. *)
Theorem start_phase_nested_raises (self : parser) (line : string)
  (l : list pyval) (f : list string) (phase : pyval) :
  split line = Ok l ->
  is_msg 4 "start_phase" l = true ->
  current_phase self = Some phase ->
  parse_trial_loop self (line :: f) = Raise AssertionError.
Proof.
  intros Hs Hl Hp.
  rewrite (parse_trial_loop_step _ _ _ _ Hs)
    by (apply (is_msg_length _ _ _ _ _ Hl); lia).
  now rewrite (start_phase_in_open_phase_raises _ _ _ Hp Hl).
Qed.

Lemma start_phase_nested_raises_witness :
  parse_trial_loop in_probe ["MSG 103 start_phase target"; "MSG 104 end_trial"]
  = Raise AssertionError.
Proof.
  apply (start_phase_nested_raises in_probe "MSG 103 start_phase target"
           [PStr "MSG"; PInt 103; PStr "start_phase"; PStr "target"] _
           (PStr "probe")).
  - vm_compute. reflexivity.
  - reflexivity.
  - reflexivity.
Defined.

(** X5: a phase whose name is a number cannot be closed: the name of the
    first trace column is [u'ptrace_' + name], which raises [TypeError]. *)
Theorem numeric_phase_name_raises (self : parser) (line : string)
  (l : list pyval) (f : list string) (phase name : pyval) :
  split line = Ok l ->
  is_msg 4 "end_phase" l = true ->
  nth_error l 3 = Some name ->
  current_phase self = Some phase ->
  py_eq phase name = true ->
  is_str phase = false ->
  parse_trial_loop self (line :: f) = Raise TypeError.
Proof.
  intros Hs Hl Hn Hp He Hnum.
  rewrite (parse_trial_loop_step _ _ _ _ Hs)
    by (apply (is_msg_length _ _ _ _ _ Hl); lia).
  unfold trial_step, parse_variable, parse_phase.
  rewrite (is_msg_length _ 5 _ "var" _ Hl) by lia. cbn [res_bind].
  rewrite (is_msg_keyword _ 4 _ "start_phase" _ Hl) by discriminate.
  rewrite Hl. apply py_index_Some in Hn. rewrite Hn. cbn [res_bind].
  rewrite Hp, He. cbn [py_assert res_bind flush_traces].
  destruct phase; [reflexivity | reflexivity | discriminate].
Qed.

Lemma numeric_phase_name_raises_witness :
  parse_trial_loop
    (set_traces (set_current_phase new_parser (Some (PInt 1))) [] [] [])
    ["MSG 103 end_phase 1"; "MSG 104 end_trial"]
  = Raise TypeError.
Proof.
  apply (numeric_phase_name_raises _ "MSG 103 end_phase 1"
           [PStr "MSG"; PInt 103; PStr "end_phase"; PInt 1] _ (PInt 1) (PInt 1)).
  - vm_compute. reflexivity.
  - reflexivity.
  - reflexivity.
  - reflexivity.
  - reflexivity.
  - reflexivity.
Defined.

(** X6: inside an open phase, a line that is no marker, no variable and not
    accepted as a sample (a wrong number of tokens, say) is skipped: the
    parser, its traces included, is left as it was. *)
Theorem unmatched_line_in_phase_skipped (self : parser) (line : string)
  (l : list pyval) (f : list string) :
  split line = Ok l ->
  is_marker l = false ->
  is_msg 5 "var" l = false ->
  to_sample l = None ->
  parse_trial_loop self (line :: f) = parse_trial_loop self f.
Proof.
  intros Hs Hm Hv Hn. unfold is_marker in Hm.
  apply orb_false_iff in Hm as [Hm He]. apply orb_false_iff in Hm as [Ht Hsp].
  rewrite (parse_trial_loop_step _ _ _ _ Hs Ht).
  unfold trial_step, parse_variable, parse_phase, parse_line.
  rewrite Hv. cbn [res_bind]. rewrite Hsp, He, Hn.
  destruct (current_phase self); reflexivity.
Qed.

Lemma unmatched_line_in_phase_skipped_witness :
  parse_trial_loop in_probe ["4815157 168.4 406.1"; "MSG 104 end_trial"]
  = parse_trial_loop in_probe ["MSG 104 end_trial"].
Proof.
  apply (unmatched_line_in_phase_skipped in_probe "4815157 168.4 406.1"
           [PInt 4815157; dec 1684 (-1); dec 4061 (-1)]).
  - vm_compute. reflexivity.
  - reflexivity.
  - reflexivity.
  - reflexivity.
Defined.

(** ** The event classes and the dictionary decoders *)

Lemma assert_numeric_ok (l : list pyval) (indices : list nat) :
  Event.assert_numeric None l indices = Ok tt ->
  Forall (fun i => exists v, nth_error l i = Some v /\ numeric_not_le0 v = true)
    indices.
Proof.
  induction indices as [|i indices IH]; intros H; [constructor|].
  cbn [Event.assert_numeric] in H. bind_inv H. apply py_index_Some in E.
  fold (numeric_not_le0 a) in H.
  destruct (numeric_not_le0 a) eqn:Hpos; [|discriminate].
  constructor; eauto.
Qed.

Lemma fixation_init_coords fn l f :
  Fixation.init fn l = Ok f ->
  nth_error l 5 = Some (Fixation.x f) /\ nth_error l 6 = Some (Fixation.y f) /\
  nth_error l 7 = Some (Fixation.pupil_size f).
Proof.
  unfold Fixation.init. intros H. bind_inv H. inversion H; subst; clear H. simpl.
  repeat match goal with E : py_index _ _ = Ok _ |- _ => apply py_index_Some in E end.
  auto.
Qed.

Lemma checked_at (l : list pyval) (indices : list nat) (i : nat) (v : pyval) :
  Forall (fun i => exists v, nth_error l i = Some v /\ numeric_not_le0 v = true)
    indices ->
  In i indices -> nth_error l i = Some v -> numeric_not_le0 v = true.
Proof.
  intros HF Hin Hv. rewrite Forall_forall in HF.
  destruct (HF i) as (v' & Hv' & Hpos); [now apply list_elem_of_In|]. congruence.
Qed.

Lemma fixation_times_checked (l : list pyval) (f : Fixation.inst) :
  fst (fixation None l) = Some f ->
  numeric_not_le0 (Fixation.st f) = true /\ numeric_not_le0 (Fixation.et f) = true.
Proof.
  intros H. apply event_Some in H as [_ H]. cbn [cls_init Fixation.cls] in H.
  pose proof (fixation_init_fields _ _ _ H) as (H2 & H3 & _).
  unfold Fixation.init in H. bind_inv H. destruct a.
  apply assert_numeric_ok in E.
  split; eapply (checked_at _ _ _ _ E); eauto; cbn; auto.
Qed.

Lemma numeric_not_le0_spec (v : pyval) :
  numeric_not_le0 v = true -> gt_zero_or_nan v.
Proof.
  unfold numeric_not_le0. destruct v as [z|f|s]; cbn; [| |discriminate].
  - intros H. apply negb_true_iff in H. now apply Z.leb_gt in H.
  - destruct f as [[]|[]| |[] m e]; cbn; intros H; try discriminate H; auto.
Qed.

Lemma checked_gt_zero_or_nan (l : list pyval) (indices : list nat) (i : nat)
  (v : pyval) :
  Forall (fun i => exists v, nth_error l i = Some v /\ numeric_not_le0 v = true)
    indices ->
  In i indices -> nth_error l i = Some v -> gt_zero_or_nan v.
Proof.
  intros HF Hin Hv. apply numeric_not_le0_spec. eapply checked_at; eauto.
Qed.

(** X7: without [fastnumbers], the times of every decoded Blink, Fixation
    and Saccade, the reported duration of a Blink, the position and the
    pupil size of a Fixation and the four coordinates of a Saccade are
    numbers that are not less than or equal to zero: an integer greater than
    zero, a float greater than zero, or [nan] (the test is [not v <= 0],
    which [nan] passes).  A line with a zero, a negative number or text in
    one of these fields is not decoded; a blink line whose start time is
    [nan] is. *)
Theorem decoded_fields_not_le0 (l : list pyval) :
  (forall b, fst (blink None l) = Some b ->
     gt_zero_or_nan (Blink.st b) /\ gt_zero_or_nan (Blink.et b) /\
     gt_zero_or_nan (Blink.duration b)) /\
  (forall f, fst (fixation None l) = Some f ->
     gt_zero_or_nan (Fixation.st f) /\
     gt_zero_or_nan (Fixation.et f) /\
     gt_zero_or_nan (Fixation.x f) /\
     gt_zero_or_nan (Fixation.y f) /\
     gt_zero_or_nan (Fixation.pupil_size f)) /\
  (forall s, fst (saccade None l) = Some s ->
     gt_zero_or_nan (Saccade.st s) /\
     gt_zero_or_nan (Saccade.et s) /\
     gt_zero_or_nan (Saccade.sx s) /\
     gt_zero_or_nan (Saccade.sy s) /\
     gt_zero_or_nan (Saccade.ex s) /\
     gt_zero_or_nan (Saccade.ey s)) /\
  fst (blink None eblink_nan_line)
  = Some (Blink.Build (PStr "R") (PFloat S754_nan) (PInt 5294774) (PInt 90)).
Proof.
  split; [|split; [|split]].
  - intros b H. apply event_Some in H as [_ H]. cbn [cls_init Blink.cls] in H.
    pose proof (blink_init_fields _ _ _ H) as (H2 & H3 & H4).
    unfold Blink.init in H. bind_inv H. destruct a.
    apply assert_numeric_ok in E.
    repeat split; eapply (checked_gt_zero_or_nan _ _ _ _ E); eauto; cbn; auto.
  - intros f H. apply event_Some in H as [_ H]. cbn [cls_init Fixation.cls] in H.
    pose proof (fixation_init_fields _ _ _ H) as (H2 & H3 & _).
    pose proof (fixation_init_coords _ _ _ H) as (H5 & H6 & H7).
    unfold Fixation.init in H. bind_inv H. destruct a.
    apply assert_numeric_ok in E.
    repeat split; eapply (checked_gt_zero_or_nan _ _ _ _ E); eauto; cbn; auto 10.
  - intros s H. apply event_Some in H as [_ H]. cbn [cls_init Saccade.cls] in H.
    pose proof (saccade_init_fields _ _ _ H) as (H2 & H3 & _ & _ & Hc).
    unfold Saccade.init in H. bind_inv H.
    destruct (length l =? 11)%nat; cbn zeta in Hc;
      destruct Hc as (Hsx & Hsy & Hex & Hey);
      bind_inv E; destruct a0; apply assert_numeric_ok in E0;
      repeat split; eapply (checked_gt_zero_or_nan _ _ _ _ E0); eauto; cbn; auto 10.
  - reflexivity.
Qed.

Lemma decoded_fields_not_le0_witness :
  gt_zero_or_nan (Saccade.st esacc_inst) /\
  gt_zero_or_nan (Saccade.et esacc_inst) /\
  gt_zero_or_nan (Saccade.sx esacc_inst) /\
  gt_zero_or_nan (Saccade.sy esacc_inst) /\
  gt_zero_or_nan (Saccade.ex esacc_inst) /\
  gt_zero_or_nan (Saccade.ey esacc_inst).
Proof.
  apply (proj1 (proj2 (proj2 (decoded_fields_not_le0 esacc_line)))).
  vm_compute. reflexivity.
Defined.

(** X8: the two decoders of saccades agree: on every line that the event
    classifier decodes as a Saccade, [to_saccade] returns the dictionary with
    the same coordinates, size, times and duration. *)
Theorem to_saccade_agrees fn (l : list pyval) (s : Saccade.inst) :
  fst (saccade fn l) = Some s ->
  to_saccade l
  = Some (SaccadeDict (Saccade.sx s) (Saccade.sy s) (Saccade.ex s) (Saccade.ey s)
            (Saccade.size s) (Saccade.st s) (Saccade.et s) (Saccade.duration s)).
Proof.
  intros H. apply event_Some in H as [Hm H].
  cbn [cls_init cls_match Saccade.cls] in H, Hm.
  apply saccade_init_fields in H as (H2 & H3 & Hd & Hsz & Hc).
  unfold Saccade.match_ in Hm. apply andb_true_iff in Hm as [Hlen Hhd].
  unfold to_saccade. rewrite Hhd. cbn [negb].
  apply orb_true_iff in Hlen as [Hlen|Hlen]; apply Nat.eqb_eq in Hlen;
    rewrite Hlen in *; cbn [Nat.eqb Nat.ltb Nat.leb orb] in *; cbn zeta in Hc;
    destruct Hc as (Hsx & Hsy & Hex & Hey);
    apply py_index_Some in H2, H3, Hsx, Hsy, Hex, Hey;
    cbn [Nat.add] in *;
    rewrite Hsx, Hsy, Hex, Hey; cbn [res_bind]; rewrite Hsz; cbn [res_bind];
    rewrite H2, H3; cbn [res_bind]; rewrite Hd; reflexivity.
Qed.

Lemma to_saccade_agrees_witness :
  to_saccade esacc_line
  = Some (SaccadeDict (Saccade.sx esacc_inst) (Saccade.sy esacc_inst)
            (Saccade.ex esacc_inst) (Saccade.ey esacc_inst)
            (Saccade.size esacc_inst) (Saccade.st esacc_inst)
            (Saccade.et esacc_inst) (Saccade.duration esacc_inst)).
Proof. apply (to_saccade_agrees None). vm_compute. reflexivity. Defined.

(** X9: the two decoders of fixations agree: on every line that the event
    classifier decodes as a Fixation, [to_fixation] returns the dictionary
    with the same position, pupil size, times and duration. *)
Theorem to_fixation_agrees fn (l : list pyval) (f : Fixation.inst) :
  fst (fixation fn l) = Some f ->
  to_fixation l
  = Ok (Some (FixationDict (Fixation.x f) (Fixation.y f) (Fixation.pupil_size f)
                (Fixation.st f) (Fixation.et f) (Fixation.duration f))).
Proof.
  intros H. apply event_Some in H as [Hm H].
  cbn [cls_init cls_match Fixation.cls] in H, Hm.
  pose proof (fixation_init_coords _ _ _ H) as (H5 & H6 & H7).
  apply fixation_init_fields in H as (H2 & H3 & Hd).
  unfold Fixation.match_ in Hm. apply andb_true_iff in Hm as [Hlen Hhd].
  unfold to_fixation. rewrite Hlen, Hhd. cbn [negb orb].
  apply py_index_Some in H2, H3, H5, H6, H7.
  rewrite H5, H6, H7, H2, H3. cbn [res_bind]. rewrite Hd. reflexivity.
Qed.

Lemma to_fixation_agrees_witness :
  to_fixation
    [PStr "EFIX"; PStr "R"; PInt 1651574; PInt 1654007; PInt 2434;
     dec 6533 (-1); dec 5578 (-1); PInt 4710]
  = Ok (Some (FixationDict (dec 6533 (-1)) (dec 5578 (-1)) (PInt 4710)
                (PInt 1651574) (PInt 1654007) (PInt 2433))).
Proof.
  apply (to_fixation_agrees None _
           (Fixation.Build (PStr "R") (dec 6533 (-1)) (dec 5578 (-1)) (PInt 4710)
              (PInt 1651574) (PInt 1654007) (PInt 2433))).
  vm_compute. reflexivity.
Defined.

(** X10: where the times of a fixation line are text, the two decoders
    differ: [to_fixation] raises [TypeError] (its subtraction is not
    guarded), while the event classifier returns no record. *)
Theorem to_fixation_raises_on_text (l : list pyval) (st et : pyval) :
  Fixation.match_ l = true ->
  nth_error l 2 = Some st ->
  nth_error l 3 = Some et ->
  is_str st || is_str et = true ->
  to_fixation l = Raise TypeError /\ fst (fixation None l) = None.
Proof.
  intros Hm H2 H3 Hs. split.
  - unfold Fixation.match_ in Hm. apply andb_true_iff in Hm as [Hlen Hhd].
    unfold to_fixation. rewrite Hlen, Hhd. cbn [negb orb].
    apply Nat.eqb_eq in Hlen.
    destruct l as [|a0 [|a1 [|a2 [|a3 [|a4 [|a5 [|a6 [|a7 [|]]]]]]]]];
      try discriminate Hlen.
    cbn in H2, H3. inversion H2; inversion H3; subst. cbn.
    destruct st, et; try discriminate Hs; reflexivity.
  - destruct (fst (fixation None l)) as [f|] eqn:Hf; [|reflexivity].
    destruct (fixation_times_checked l f Hf) as [Hst Het].
    apply event_Some in Hf as [_ Hf]. cbn [cls_init Fixation.cls] in Hf.
    apply fixation_init_fields in Hf as (H2' & H3' & _).
    assert (Fixation.st f = st) by congruence.
    assert (Fixation.et f = et) by congruence. subst.
    unfold numeric_not_le0 in Hst, Het.
    destruct (Fixation.st f), (Fixation.et f); try discriminate Hs;
      discriminate.
Qed.

Lemma to_fixation_raises_on_text_witness :
  to_fixation
    [PStr "EFIX"; PStr "R"; PStr "."; PStr "."; PInt 2434;
     dec 6533 (-1); dec 5578 (-1); PInt 4710] = Raise TypeError /\
  fst (fixation None
         [PStr "EFIX"; PStr "R"; PStr "."; PStr "."; PInt 2434;
          dec 6533 (-1); dec 5578 (-1); PInt 4710]) = None.
Proof.
  apply (to_fixation_raises_on_text _ (PStr ".") (PStr ".")); reflexivity.
Defined.

(** X11: decoding a Blink never warns: on a line that matches, the
    constructor either succeeds or raises the [TypeError] that [event]
    swallows. *)
Theorem blink_never_warns fn (l : list pyval) : snd (blink fn l) = [].
Proof.
  unfold blink, event. cbn [cls_match cls_init Blink.cls].
  destruct (Blink.match_ l) eqn:Hm; [|reflexivity]. cbn [negb].
  unfold Blink.match_ in Hm. apply andb_true_iff in Hm as [Hlen _].
  apply Nat.eqb_eq in Hlen.
  destruct l as [|a0 [|a1 [|a2 [|a3 [|a4 [|]]]]]]; try discriminate Hlen.
  unfold Blink.init. cbn.
  destruct fn as [isreal|];
    repeat match goal with
           | |- context [if ?b then _ else _] => destruct b; cbn
           end; reflexivity.
Qed.

Lemma sample_init_raises fn eyes l e :
  Sample.match_ l = true ->
  Sample.init fn eyes l = Raise e ->
  (e = TypeError /\ Event.assert_numeric fn l [0%nat] = Raise TypeError) \/
  (e = IndexError /\ Event.assert_numeric fn l [0%nat] = Ok tt /\
   String.eqb eyes "both" = true /\ (length l < 7)%nat).
Proof.
  intros Hm H. unfold Sample.match_ in Hm. apply andb_true_iff in Hm as [Hlen _].
  unfold Sample.init in H.
  destruct l as [|t l]; [discriminate Hlen|].
  cbn [Event.assert_numeric py_index nth_error res_bind] in *.
  match type of H with
  | context [if ?b then _ else _] => destruct b
  end; cbn [res_bind] in H; [|inversion H; auto].
  right.
  destruct l as [|a1 [|a2 [|a3 [|a4 [|a5 [|a6 rest]]]]]];
    try discriminate Hlen;
    destruct (String.eqb eyes "both"), (String.eqb eyes "right"),
      (String.eqb eyes "left"); cbn in H; try discriminate H;
    inversion H; repeat split; cbn; lia.
Qed.

(** X12: decoding a Sample warns in one case only, and then about an
    [IndexError]: a line that matches and has a numeric first token, decoded
    for both eyes, with fewer than the seven tokens that both eyes need. *)
Theorem sample_warns_iff fn (l : list pyval) (eyes : string) :
  (Sample.match_ l = true /\ Event.assert_numeric fn l [0%nat] = Ok tt /\
   eyes = "both" /\ (length l < 7)%nat ->
   sample fn l eyes = (None, [IndexError])) /\
  (snd (sample fn l eyes) <> [] ->
   Sample.match_ l = true /\ Event.assert_numeric fn l [0%nat] = Ok tt /\
   eyes = "both" /\ (length l < 7)%nat).
Proof.
  split.
  - intros (Hm & Hn & -> & Hlen). unfold sample, event.
    cbn [cls_match cls_init Sample.cls]. rewrite Hm. cbn [negb].
    destruct (Sample.init fn "both" l) as [s|e] eqn:Hi.
    + assert (Hex : exists s, Sample.init fn "both" l = Ok s) by eauto.
      apply sample_init_accepts in Hex as [_ Hneed]. cbn in Hneed. lia.
    + destruct (sample_init_raises _ _ _ _ Hm Hi) as [[_ Hr]|[-> _]];
        [congruence | reflexivity].
  - unfold sample, event. cbn [cls_match cls_init Sample.cls].
    destruct (Sample.match_ l) eqn:Hm; cbn [negb]; [|intros H; now elim H].
    destruct (Sample.init fn eyes l) as [s|e] eqn:Hi; [intros H; now elim H|].
    destruct (sample_init_raises _ _ _ _ Hm Hi) as [[-> _]|(-> & Hn & He & Hlen)].
    + intros H. now elim H.
    + intros _. apply String.eqb_eq in He. auto.
Qed.

Lemma sample_warns_iff_witness :
  sample None blink_sample_line "both" = (None, [IndexError]).
Proof.
  apply (proj1 (sample_warns_iff None blink_sample_line "both")).
  repeat split. cbn. lia.
Defined.

(** ** The table of a file *)

Lemma split_terminated_ok (line : string) :
  unterminated line = false -> exists l, split line = Ok l.
Proof.
  intros H. unfold unterminated in H. unfold split, Shlex.split.
  pose proof (read_end_state line Shlex.StWhite false EmptyString) as Hr.
  destruct (end_state Shlex.StWhite line); try discriminate H;
    destruct Hr as [ws ->]; cbn; eauto.
Qed.

Lemma parse_file_loop_no_trial (lines : list string) :
  forall fuel self ntrial,
    forallb (fun line => negb (unterminated line)
                         && negb (marker_line 4 "start_trial" line)) lines = true ->
    parse_file_loop fuel self ntrial lines = Ok (self, ntrial).
Proof.
  induction lines as [|line lines IH]; intros fuel self ntrial H.
  - destruct fuel; reflexivity.
  - destruct fuel as [|fuel]; [reflexivity|].
    cbn [forallb] in H. apply andb_true_iff in H as [Hline H].
    apply andb_true_iff in Hline as [Ht Hm].
    apply negb_true_iff in Ht, Hm.
    destruct (split_terminated_ok line Ht) as [l Hl].
    unfold marker_line in Hm. rewrite Hl in Hm.
    cbn [parse_file_loop]. rewrite Hl. cbn [res_bind].
    unfold is_start_trial. rewrite Hm. now apply IH.
Qed.

(** X13: a file none of whose lines is a start_trial marker (and whose lines
    can all be tokenized) gives an empty table and a count of zero trials:
    outside a trial every line is ignored. *)
Theorem file_without_trials (self : parser) (file : string)
  (lines : list string) :
  forallb (fun line => negb (unterminated line)
                       && negb (marker_line 4 "start_trial" line)) lines = true ->
  parse_file self file lines
  = Ok (set_path (set_filedm self []) file, [], 0%nat).
Proof.
  intros H. unfold parse_file, on_start_file, on_end_file.
  now rewrite parse_file_loop_no_trial.
Qed.

Lemma file_without_trials_witness :
  parse_file new_parser "data/s01.asc"
    ["** CONVERTED FROM s01.edf"; "MSG 100 var cond A";
     "4815155 168.2 406.5 2141.0 ..."; "MSG 104 end_trial"]
  = Ok (set_path (set_filedm new_parser []) "data/s01.asc", [], 0%nat).
Proof. apply file_without_trials. vm_compute. reflexivity. Defined.

Lemma parse_file_loop_count (fuel : nat) :
  forall self ntrial f self' ntrial',
    parse_file_loop fuel self ntrial f = Ok (self', ntrial') ->
    (length (filedm self') + ntrial = length (filedm self) + ntrial')%nat.
Proof.
  induction fuel as [|fuel IH]; intros self ntrial f self' ntrial' H.
  - cbn in H. inversion H. lia.
  - destruct f as [|line f]; [cbn in H; inversion H; lia|].
    cbn [parse_file_loop] in H. bind_inv H. rename a into l.
    unfold is_start_trial in H. destruct (is_msg 4 "start_trial" l).
    + bind_inv H. destruct a as [[self2 dm] rest].
      apply IH in H. cbn in H. rewrite length_app in H. cbn in H.
      unfold parse_trial in E0. bind_inv E0. destruct a as [self3 rest'].
      inversion E0; subst; clear E0.
      apply parse_trial_loop_spec in E1 as (_ & Hdm & _).
      unfold on_end_trial in H. rewrite Hdm in H. cbn in H. lia.
    + apply IH in H. exact H.
Qed.

(** X14: the count of trials that [parse_file] reports is the number of rows
    of the table it returns, and that table is the parser's [filedm]. *)
Theorem rows_match_count (self self' : parser) (file : string)
  (lines : list string) (rows : list row) (ntrial : nat) :
  parse_file self file lines = Ok (self', rows, ntrial) ->
  length rows = ntrial /\ filedm self' = rows.
Proof.
  unfold parse_file, on_start_file, on_end_file. intros H. bind_inv H.
  destruct a as [self2 n]. inversion H; subst; clear H.
  apply parse_file_loop_count in E. cbn in E. split; [lia | reflexivity].
Qed.

Lemma rows_match_count_witness :
  length [ (<["trialid" := Scalar (PInt 1)]> (<["path" := Scalar (PStr "f")]> ∅) : row) ]
  = 1%nat /\
  filedm
    (Parser [ <["trialid" := Scalar (PInt 1)]> (<["path" := Scalar (PStr "f")]> ∅) ]
       "f" (<["trialid" := Scalar (PInt 1)]> (<["path" := Scalar (PStr "f")]> ∅))
       None None [] [] [])
  = [ <["trialid" := Scalar (PInt 1)]> (<["path" := Scalar (PStr "f")]> ∅) ].
Proof.
  apply (rows_match_count new_parser _ "f"
           ["MSG 100 start_trial 1"; "MSG 104 end_trial"]).
  vm_compute. reflexivity.
Defined.

Lemma dm_set_keeps (dm dm' : row) (name : pyval) (c : cell) (k : string) :
  dm_set dm name c = Ok dm' -> is_Some (dm !! k) -> is_Some (dm' !! k).
Proof.
  unfold dm_set. destruct name as [| |s]; try discriminate.
  intros H Hk. inversion H; subst. rewrite lookup_insert.
  destruct (decide (s = k)); [eauto | exact Hk].
Qed.

Lemma flush_traces_keeps (traces : list (string * list pyval)) :
  forall dm dm' phase k,
    flush_traces dm phase traces = Ok dm' ->
    is_Some (dm !! k) -> is_Some (dm' !! k).
Proof.
  induction traces as [|[prefix trace] traces IH]; intros dm dm' phase k H Hk.
  - inversion H; subst. exact Hk.
  - cbn [flush_traces] in H. bind_inv H.
    eapply IH; [exact H|]. eapply dm_set_keeps; eauto.
Qed.

Lemma trial_step_keeps (self self' : parser) (l : list pyval) (k : string) :
  trial_step self l = Ok self' ->
  is_Some (trialdm self !! k) -> is_Some (trialdm self' !! k).
Proof.
  unfold trial_step, parse_line. intros H Hk. bind_inv H. inversion H; subst; clear H.
  assert (Hk1 : is_Some (trialdm a !! k)).
  { unfold parse_variable in E. destruct (is_msg 5 "var" l).
    - bind_inv E. inversion E; subst. cbn. eapply dm_set_keeps; eauto.
    - inversion E; subst. exact Hk. }
  clear E Hk. unfold parse_phase in E0.
  destruct (is_msg 4 "start_phase" l).
  { bind_inv E0. inversion E0; subst. exact Hk1. }
  destruct (is_msg 4 "end_phase" l).
  { bind_inv E0. destruct (current_phase a); [|discriminate].
    bind_inv E0. inversion E0; subst. cbn. eapply flush_traces_keeps; eauto. }
  destruct (current_phase a); [|inversion E0; subst; exact Hk1].
  destruct (to_sample l); inversion E0; subst; exact Hk1.
Qed.

Lemma parse_trial_loop_keeps (f : list string) :
  forall self self' rest k,
    parse_trial_loop self f = Ok (self', rest) ->
    is_Some (trialdm self !! k) -> is_Some (trialdm self' !! k).
Proof.
  induction f as [|line f IH]; intros self self' rest k H Hk.
  - inversion H; subst. exact Hk.
  - destruct (split line) as [l|e] eqn:Hs;
      [|cbn [parse_trial_loop] in H; rewrite Hs in H; discriminate].
    destruct (is_msg 3 "end_trial" l) eqn:He.
    + rewrite (parse_trial_loop_end _ _ _ _ Hs He) in H.
      inversion H; subst. exact Hk.
    + rewrite (parse_trial_loop_step _ _ _ _ Hs He) in H. bind_inv H.
      eapply IH; [exact H|]. eapply trial_step_keeps; eauto.
Qed.

Lemma parse_file_loop_rows (fuel : nat) :
  forall self ntrial f self' ntrial',
    parse_file_loop fuel self ntrial f = Ok (self', ntrial') ->
    Forall (fun r : row => is_Some (r !! "path") /\ is_Some (r !! "trialid"))
      (filedm self) ->
    Forall (fun r : row => is_Some (r !! "path") /\ is_Some (r !! "trialid"))
      (filedm self').
Proof.
  induction fuel as [|fuel IH]; intros self ntrial f self' ntrial' H Hrows.
  - cbn in H. inversion H; subst. exact Hrows.
  - destruct f as [|line f]; [cbn in H; inversion H; subst; exact Hrows|].
    cbn [parse_file_loop] in H. bind_inv H. rename a into l.
    unfold is_start_trial in H. destruct (is_msg 4 "start_trial" l) eqn:Hl.
    + bind_inv H. destruct a as [[self2 dm] rest].
      apply IH in H; [exact H|]. cbn [filedm set_filedm].
      unfold parse_trial in E0. bind_inv E0. destruct a as [self3 rest'].
      inversion E0; subst; clear E0. unfold on_end_trial, on_start_trial in *.
      pose proof (parse_trial_loop_spec _ _ _ _ E1) as (_ & Hdm & _).
      rewrite Hdm. cbn [filedm set_trialdm set_current_phase set_trialid].
      apply Forall_app. split; [exact Hrows|]. constructor; [|constructor].
      apply is_msg_inv in Hl as [Hlen (l1 & rest0 & ->)].
      destruct rest0 as [|l3 rest0]; [discriminate Hlen|].
      split; eapply parse_trial_loop_keeps; try exact E1; cbn;
        [rewrite lookup_insert_ne by discriminate|];
        rewrite lookup_insert_eq; eauto.
    + eapply IH; eauto.
Qed.

(** X15: every row of the table of a file has a cell [path] and a cell
    [trialid]: they are set when the trial starts and no later line removes
    a column. *)
Theorem rows_have_path_and_trialid (self self' : parser) (file : string)
  (lines : list string) (rows : list row) (ntrial : nat) :
  parse_file self file lines = Ok (self', rows, ntrial) ->
  Forall (fun r : row => is_Some (r !! "path") /\ is_Some (r !! "trialid")) rows.
Proof.
  unfold parse_file, on_start_file, on_end_file. intros H. bind_inv H.
  destruct a as [self2 n]. inversion H; subst; clear H.
  eapply parse_file_loop_rows; [exact E|]. constructor.
Qed.

Lemma rows_have_path_and_trialid_witness :
  Forall (fun r : row => is_Some (r !! "path") /\ is_Some (r !! "trialid"))
    [ <["trialid" := Scalar (PInt 1)]> (<["path" := Scalar (PStr "f")]> ∅) ].
Proof.
  apply (rows_have_path_and_trialid new_parser
    (Parser [ <["trialid" := Scalar (PInt 1)]> (<["path" := Scalar (PStr "f")]> ∅) ]
       "f" (<["trialid" := Scalar (PInt 1)]> (<["path" := Scalar (PStr "f")]> ∅))
       None None [] [] [])
    "f" ["MSG 100 start_trial 1"; "MSG 104 end_trial"] _ 1%nat).
  vm_compute. reflexivity.
Defined.

(** ** The parser object between trials and between files *)

(** Closes a goal [sim a b] from the equations in the context. *)
Ltac sim_tac :=
  unfold sim; cbn;
  repeat match goal with |- _ /\ _ => split end;
  try reflexivity; try assumption; try congruence;
  first [ left; congruence | right; repeat split; congruence ].

Lemma parse_variable_sim (a b : parser) (l : list pyval) :
  sim a b -> res_rel sim (parse_variable a l) (parse_variable b l).
Proof.
  intros (Hf & Hpa & Hdm & Hid & Hph & Htr). unfold parse_variable.
  destruct (is_msg 5 "var" l); [|cbn; sim_tac].
  destruct (py_index l 3) as [name|e]; [|reflexivity]. cbn [res_bind].
  destruct (py_index l 4) as [value|e]; [|reflexivity]. cbn [res_bind].
  rewrite Hdm. destruct (dm_set (trialdm b) name (Scalar value)); cbn;
    [sim_tac | reflexivity].
Qed.

Lemma parse_phase_sim (a b : parser) (l : list pyval) :
  sim a b -> res_rel sim (parse_phase a l) (parse_phase b l).
Proof.
  intros (Hf & Hpa & Hdm & Hid & Hph & Htr). unfold parse_phase.
  rewrite Hdm, Hph.
  destruct (is_msg 4 "start_phase" l).
  { destruct (current_phase b); cbn; [reflexivity|].
    sim_tac. }
  destruct (is_msg 4 "end_phase" l).
  { destruct (py_index l 3) as [l3|e]; [|reflexivity]. cbn [res_bind].
    destruct (current_phase b) as [phase|] eqn:Hb; [|reflexivity].
    destruct (py_eq phase l3); [|reflexivity]. cbn [py_assert res_bind].
    destruct Htr as [Hn|(Hp & Hx & Hy)]; [congruence|].
    rewrite Hp, Hx, Hy.
    destruct (flush_traces _ _ _); cbn; [sim_tac | reflexivity]. }
  destruct (current_phase b) as [phase|] eqn:Hb; [|cbn; sim_tac].
  destruct Htr as [Hn|(Hp & Hx & Hy)]; [congruence|].
  destruct (to_sample l); cbn; sim_tac.
Qed.

Lemma trial_step_sim (a b : parser) (l : list pyval) :
  sim a b -> res_rel sim (trial_step a l) (trial_step b l).
Proof.
  intros H. unfold trial_step, parse_line.
  pose proof (parse_variable_sim a b l H) as Hv.
  destruct (parse_variable a l) as [a1|e], (parse_variable b l) as [b1|e'];
    cbn in Hv; try contradiction; [|exact Hv]. cbn [res_bind].
  pose proof (parse_phase_sim a1 b1 l Hv) as Hp.
  destruct (parse_phase a1 l) as [a2|e], (parse_phase b1 l) as [b2|e'];
    cbn in Hp; try contradiction; exact Hp.
Qed.

Lemma parse_trial_loop_sim (f : list string) :
  forall a b,
    sim a b ->
    res_rel (fun x y => sim (fst x) (fst y) /\ snd x = snd y)
      (parse_trial_loop a f) (parse_trial_loop b f).
Proof.
  induction f as [|line f IH]; intros a b H.
  - cbn. auto.
  - destruct (split line) as [l|e] eqn:Hs;
      [|cbn [parse_trial_loop]; rewrite Hs; reflexivity].
    destruct (is_msg 3 "end_trial" l) eqn:He.
    + rewrite !(parse_trial_loop_end _ _ _ _ Hs He). cbn.
      destruct H as (Hf & Hpa & Hdm & Hid & Hph & Htr).
      split; [sim_tac | reflexivity].
    + rewrite !(parse_trial_loop_step _ _ _ _ Hs He).
      pose proof (trial_step_sim a b l H) as Ht.
      destruct (trial_step a l) as [a1|e], (trial_step b l) as [b1|e'];
        cbn in Ht; try contradiction; [|exact Ht]. cbn [res_bind].
      now apply IH.
Qed.

Lemma parse_file_loop_sim (fuel : nat) :
  forall a b ntrial f,
    sim_file a b ->
    res_rel (fun x y => sim_file (fst x) (fst y) /\ snd x = snd y)
      (parse_file_loop fuel a ntrial f) (parse_file_loop fuel b ntrial f).
Proof.
  induction fuel as [|fuel IH]; intros a b ntrial f H.
  - cbn. auto.
  - destruct f as [|line f]; [cbn; auto|].
    cbn [parse_file_loop]. destruct (split line) as [l|e]; [|reflexivity].
    cbn [res_bind]. unfold is_start_trial.
    destruct (is_msg 4 "start_trial" l); [|now apply IH].
    unfold parse_trial, on_start_trial, on_end_trial.
    destruct H as [Hf Hp].
    match goal with
    | |- res_rel _ (res_bind (res_bind (parse_trial_loop ?a1 f) _) _)
                   (res_bind (res_bind (parse_trial_loop ?b1 f) _) _) =>
        assert (Hs : sim a1 b1);
        [ unfold new_trialdm; cbn; rewrite Hp; sim_tac
        | pose proof (parse_trial_loop_sim f a1 b1 Hs) as Hl;
          destruct (parse_trial_loop a1 f) as [[a2 ra]|e],
                   (parse_trial_loop b1 f) as [[b2 rb]|e'] ]
    end; cbn in Hl; try contradiction; [|exact Hl].
    destruct Hl as [Hs2 Hr]. subst rb. cbn [res_bind].
    apply IH. destruct Hs2 as (Hf2 & Hp2 & Hdm2 & _).
    unfold sim_file. cbn. rewrite Hf2, Hdm2. auto.
Qed.

Lemma table_of_parse_file (a b : parser) (file : string) (lines : list string) :
  table_of (parse_file a file lines) = table_of (parse_file b file lines).
Proof.
  unfold parse_file, on_start_file, on_end_file, table_of, res_map.
  assert (H : sim_file (set_path (set_filedm a []) file)
                       (set_path (set_filedm b []) file)) by (split; reflexivity).
  pose proof (parse_file_loop_sim (length lines) _ _ 0%nat lines H) as Hl.
  destruct (parse_file_loop (length lines) (set_path (set_filedm a []) file) 0 lines)
    as [[a1 n]|e],
    (parse_file_loop (length lines) (set_path (set_filedm b []) file) 0 lines)
    as [[b1 m]|e']; cbn in Hl; try contradiction.
  - destruct Hl as [[Hf _] ->]. cbn. now rewrite Hf.
  - cbn. now rewrite Hl.
Qed.

(** X16: the table and the trial count of a file do not depend on the state
    in which earlier files have left the parser object: any parser gives the
    rows, the count (or the exception) that a new parser gives. *)
Theorem parse_file_independent_of_state (self : parser) (file : string)
  (lines : list string) :
  table_of (parse_file self file lines) = table_of (parse_file new_parser file lines).
Proof. apply table_of_parse_file. Qed.

Lemma init_loop_rows (listing : list (string * list string)) :
  forall self dm folder ext,
    res_map snd (init_loop self dm folder ext listing)
    = res_map (app dm) (corpus_rows folder ext listing).
Proof.
  induction listing as [|[fname lines] listing IH]; intros self dm folder ext.
  - cbn. now rewrite app_nil_r.
  - cbn [init_loop corpus_rows]. destruct (negb (endswith fname ext)); [apply IH|].
    pose proof (table_of_parse_file self new_parser (os_path_join folder fname) lines)
      as Ht.
    destruct (parse_file self (os_path_join folder fname) lines)
      as [[[self1 rows] n]|e],
      (parse_file new_parser (os_path_join folder fname) lines)
      as [[[self2 rows2] n2]|e']; cbn in Ht; try discriminate Ht.
    + inversion Ht; subst. cbn [res_bind table_of res_map fst]. rewrite IH.
      destruct (corpus_rows folder ext listing); cbn; [now rewrite app_assoc|reflexivity].
    + inversion Ht; subst. reflexivity.
Qed.

(** X17: the table that [EyeLinkParser(folder, ext)] builds is the
    concatenation, in the order of the listing, of the tables of the files
    whose name ends with the extension, each as a parser of its own would
    parse it; files with another extension are skipped, and the exception of
    the first file that raises one is raised. *)
Theorem corpus_is_concatenation (folder ext : string)
  (listing : list (string * list string)) :
  res_map snd (EyeLinkParser_init folder ext listing)
  = corpus_rows folder ext listing.
Proof.
  unfold EyeLinkParser_init. rewrite init_loop_rows.
  destruct (corpus_rows folder ext listing); reflexivity.
Qed.

(** ** What the traces and the rows hold *)

Lemma to_sample_Some (l : list pyval) (s : sample_dict) :
  to_sample l = Some s ->
  (length l = 5 \/ length l = 9)%nat /\
  nth_error l 0 = Some (sample_time s) /\ nth_error l 1 = Some (sample_x s) /\
  nth_error l 2 = Some (sample_y s) /\ nth_error l 3 = Some (sample_pupil_size s) /\
  is_str (sample_time s) = false /\ is_str (sample_x s) = false /\
  is_str (sample_pupil_size s) = false /\
  py_eq (sample_pupil_size s) (PInt 0) = false.
Proof.
  unfold to_sample. destruct l as [|l0 [|l1 [|l2 [|l3 rest]]]]; try discriminate.
  destruct (length (l0 :: l1 :: l2 :: l3 :: rest) =? 5)%nat eqn:E5;
    destruct (length (l0 :: l1 :: l2 :: l3 :: rest) =? 9)%nat eqn:E9;
    destruct (is_str l0) eqn:H0; cbn [negb orb]; try discriminate;
    destruct (is_str l1) eqn:H1; try discriminate;
    destruct (py_eq l3 (PInt 0)) eqn:Hz; cbn [orb]; try discriminate;
    destruct (is_str l3) eqn:H3; try discriminate;
    intros H; inversion H; subst; cbn [sample_time sample_x sample_y sample_pupil_size];
    apply Nat.eqb_eq in E5 || apply Nat.eqb_eq in E9; auto 12.
Qed.

Lemma trial_step_traces_ok (self self' : parser) (l : list pyval) :
  traces_ok self -> trial_step self l = Ok self' -> traces_ok self'.
Proof.
  intros Hok H. unfold trial_step, parse_line in H. bind_inv H.
  inversion H; subst; clear H.
  apply parse_variable_phase in E as (_ & Hp & Hx & Hy).
  assert (Hok1 : traces_ok a).
  { unfold traces_ok in *. now rewrite Hp, Hx, Hy. }
  clear Hok Hp Hx Hy. unfold parse_phase in E0.
  destruct (is_msg 4 "start_phase" l).
  { bind_inv E0. inversion E0; subst. unfold traces_ok. cbn. auto. }
  destruct (is_msg 4 "end_phase" l).
  { bind_inv E0. destruct (current_phase a); [|discriminate].
    bind_inv E0. inversion E0; subst. exact Hok1. }
  destruct (current_phase a); [|inversion E0; subst; exact Hok1].
  destruct (to_sample l) as [s|] eqn:Hs; inversion E0; subst; [|exact Hok1].
  apply to_sample_Some in Hs as (_ & _ & _ & _ & _ & _ & Hx & Hp & Hz).
  destruct Hok1 as (L1 & L2 & Fp & Fx). unfold traces_ok. cbn.
  rewrite !length_app. cbn. repeat split; try lia.
  - apply Forall_app. split; [exact Fp|]. constructor; auto.
  - apply Forall_app. split; [exact Fx|]. constructor; auto.
Qed.

Lemma parse_trial_loop_traces_ok (f : list string) :
  forall self self' rest,
    traces_ok self -> parse_trial_loop self f = Ok (self', rest) ->
    traces_ok self'.
Proof.
  induction f as [|line f IH]; intros self self' rest Hok H.
  - inversion H; subst. exact Hok.
  - destruct (split line) as [l|e] eqn:Hs;
      [|cbn [parse_trial_loop] in H; rewrite Hs in H; discriminate].
    destruct (is_msg 3 "end_trial" l) eqn:He.
    + rewrite (parse_trial_loop_end _ _ _ _ Hs He) in H.
      inversion H; subst. exact Hok.
    + rewrite (parse_trial_loop_step _ _ _ _ Hs He) in H. bind_inv H.
      eapply IH; [|exact H]. eapply trial_step_traces_ok; eauto.
Qed.

(** X18: the loop of [parse_trial] keeps the three traces parallel: started
    with traces of equal length, it ends with traces of equal length, the
    pupil trace holding numbers other than zero and the x trace holding
    numbers, if they did at the start. *)
Theorem trial_keeps_traces_parallel (self self' : parser) (f rest : list string) :
  traces_ok self ->
  parse_trial_loop self f = Ok (self', rest) ->
  traces_ok self'.
Proof. intros Hok H. eapply parse_trial_loop_traces_ok; eauto. Qed.

Lemma trial_keeps_traces_parallel_witness :
  traces_ok
    (Parser [] EmptyString
       (<["ytrace_probe" := Series [dec 4065 (-1); dec 4075 (-1)]]>
          (<["xtrace_probe" := Series [dec 1682 (-1); dec 1690 (-1)]]>
             (<["ptrace_probe" := Series [dec 21410 (-1); dec 21390 (-1)]]>
                (<["rt" := Scalar (PInt 805)]> ∅))))
       None None
       [dec 21410 (-1); dec 21390 (-1)] [dec 1682 (-1); dec 1690 (-1)]
       [dec 4065 (-1); dec 4075 (-1)]).
Proof.
  apply (trial_keeps_traces_parallel new_parser _
           ("MSG 102 start_phase probe" :: probe_body ++ ["MSG 103 end_phase probe"])
           []).
  - unfold traces_ok. cbn. auto.
  - vm_compute. reflexivity.
Defined.

Lemma all_scalar_insert (dm : row) (k : string) (v : pyval) :
  all_scalar dm -> all_scalar (<[k := Scalar v]> dm).
Proof.
  intros H k' c. rewrite lookup_insert. destruct (decide (k = k')).
  - intros Hc. inversion Hc. eauto.
  - apply H.
Qed.

Lemma trial_step_all_scalar (self self' : parser) (l : list pyval) :
  is_msg 4 "end_phase" l = false ->
  all_scalar (trialdm self) -> trial_step self l = Ok self' ->
  all_scalar (trialdm self').
Proof.
  intros He Hdm H. unfold trial_step, parse_line in H. bind_inv H.
  inversion H; subst; clear H.
  assert (Hdm1 : all_scalar (trialdm a)).
  { unfold parse_variable in E. destruct (is_msg 5 "var" l).
    - bind_inv E. inversion E; subst. cbn.
      match goal with
      | Hs : dm_set _ ?name _ = Ok _ |- _ =>
          unfold dm_set in Hs; destruct name; try discriminate Hs;
          inversion Hs; subst
      end.
      now apply all_scalar_insert.
    - inversion E; subst. exact Hdm. }
  clear E Hdm. unfold parse_phase in E0. rewrite He in E0.
  destruct (is_msg 4 "start_phase" l).
  { bind_inv E0. inversion E0; subst. exact Hdm1. }
  destruct (current_phase a); [|inversion E0; subst; exact Hdm1].
  destruct (to_sample l); inversion E0; subst; exact Hdm1.
Qed.

Lemma parse_trial_loop_all_scalar (f : list string) :
  forall self self' rest,
    forallb (fun line => negb (marker_line 4 "end_phase" line)) f = true ->
    all_scalar (trialdm self) ->
    parse_trial_loop self f = Ok (self', rest) ->
    all_scalar (trialdm self').
Proof.
  induction f as [|line f IH]; intros self self' rest Hf Hdm H.
  - inversion H; subst. exact Hdm.
  - cbn [forallb] in Hf. apply andb_true_iff in Hf as [Hline Hf].
    apply negb_true_iff in Hline. unfold marker_line in Hline.
    destruct (split line) as [l|e] eqn:Hs;
      [|cbn [parse_trial_loop] in H; rewrite Hs in H; discriminate].
    destruct (is_msg 3 "end_trial" l) eqn:He.
    + rewrite (parse_trial_loop_end _ _ _ _ Hs He) in H.
      inversion H; subst. exact Hdm.
    + rewrite (parse_trial_loop_step _ _ _ _ Hs He) in H. bind_inv H.
      eapply IH; [exact Hf| |exact H]. eapply trial_step_all_scalar; eauto.
Qed.

(** X19: a trial in which no phase is closed gives a row without trace
    columns: every cell of the row that [parse_trial] returns is a scalar
    (the path, the trial identifier and the variables). *)
Theorem trial_without_phase_has_no_traces (self self' : parser)
  (f rest : list string) (dm : row) :
  forallb (fun line => negb (marker_line 4 "end_phase" line)) f = true ->
  parse_trial self f = Ok (self', dm, rest) ->
  all_scalar dm.
Proof.
  intros Hf H. unfold parse_trial, on_start_trial, on_end_trial in H.
  bind_inv H. destruct a as [self1 rest1]. inversion H; subst; clear H.
  eapply parse_trial_loop_all_scalar; [exact Hf| |exact E].
  cbn. unfold new_trialdm.
  destruct (trialid self); repeat apply all_scalar_insert;
    intros k c Hc; rewrite lookup_empty in Hc; discriminate.
Qed.

Lemma trial_without_phase_has_no_traces_witness :
  all_scalar
    (<["cond" := Scalar (PStr "A")]> (<["path" := Scalar (PStr EmptyString)]> ∅)).
Proof.
  apply (trial_without_phase_has_no_traces new_parser
    (Parser [] EmptyString
       (<["cond" := Scalar (PStr "A")]> (<["path" := Scalar (PStr EmptyString)]> ∅))
       None (Some (PStr "probe")) [] [] [])
    ["MSG 101 var cond A"; "MSG 102 start_phase probe"; "MSG 104 end_trial"] []).
  - vm_compute. reflexivity.
  - vm_compute. reflexivity.
Defined.

(** X20: a variable line sets its cell and nothing else: even inside an
    open phase it is never taken for a sample (its first token is text), so
    the open phase and the three traces are left as they were. *)
Theorem var_line_sets_cell_only (self : parser) (line : string)
  (l : list pyval) (f : list string) (name : string) (value : pyval) :
  split line = Ok l ->
  is_msg 5 "var" l = true ->
  nth_error l 3 = Some (PStr name) ->
  nth_error l 4 = Some value ->
  parse_trial_loop self (line :: f)
  = parse_trial_loop
      (set_trialdm self (<[name := Scalar value]> (trialdm self))) f.
Proof.
  intros Hs Hl Hn Hv.
  rewrite (parse_trial_loop_step _ _ _ _ Hs)
    by (apply (is_msg_length _ _ _ _ _ Hl); lia).
  unfold trial_step, parse_variable, parse_phase, parse_line.
  rewrite Hl. apply py_index_Some in Hn, Hv. rewrite Hn, Hv. cbn [res_bind dm_set].
  rewrite (is_msg_length _ 4 _ "start_phase" _ Hl) by lia.
  rewrite (is_msg_length _ 4 _ "end_phase" _ Hl) by lia.
  rewrite (to_sample_msg _ _ _ Hl).
  cbn [current_phase set_trialdm].
  destruct (current_phase self); reflexivity.
Qed.

Lemma var_line_sets_cell_only_witness :
  parse_trial_loop in_probe ["MSG 4815156 var rt 805"; "MSG 104 end_trial"]
  = parse_trial_loop
      (set_trialdm in_probe (<["rt" := Scalar (PInt 805)]> (trialdm in_probe)))
      ["MSG 104 end_trial"].
Proof.
  apply (var_line_sets_cell_only in_probe "MSG 4815156 var rt 805"
           [PStr "MSG"; PInt 4815156; PStr "var"; PStr "rt"; PInt 805]).
  - vm_compute. reflexivity.
  - reflexivity.
  - reflexivity.
  - reflexivity.
Defined.
